(** * bitwarden-to-pass: a shallow embedding of [bitwarden-to-pass.py]

    The script reads the item list of a Bitwarden vault (JSON), turns every
    item into an entry name and a text body, and writes the body into the
    [pass] password store, replacing an entry of the same name.

    Conventions of the embedding.
    - Python [str] values are Rocq strings; the text is taken to be 7-bit
      ASCII ([lower] and [repr] are the ASCII ones).
    - A value produced by [json.loads] is a [json] tree.  Numbers are the
      integers (a JSON number with a fraction or an exponent is not
      modelled); a [dict] is the association list of its keys in insertion
      order, one binding per key.
    - A Python exception is a value of [exn]; fallible code lives in the
      [result] monad, and code that also acts on the outside in [prog].
    - The password store directory is a finite map from file names to file
      contents; file names are compared as plain strings, so an entry name
      is not read as a path.
    - The tools [bw] and [pass] are not part of the script.  They are taken
      to run and to do what their manuals say: [bw unlock --raw] prints a
      session token or nothing, [bw list items] prints the items, and
      [pass insert -m name] stores its input as the entry [name]. *)

From Stdlib Require Import ZArith Ascii String List Lia.
From stdpp Require Import base option list strings pretty gmap.

Local Open Scope Z_scope.
Local Open Scope stdpp_scope.

(** ** Python strings *)

Module PyStr.

Definition nl : string := String "010"%char "".
Definition tab : string := String "009"%char "".

(** [c.lower()] on one ASCII character. *)
Definition lower_char (c : ascii) : ascii :=
  let n := nat_of_ascii c in
  if ((65 <=? n) && (n <=? 90))%nat then ascii_of_nat (n + 32) else c.

(** [s.lower()] *)
Fixpoint lower (s : string) : string :=
  match s with
  | EmptyString => EmptyString
  | String c s' => String (lower_char c) (lower s')
  end.

(** The character class [[-_|]]. *)
Definition is_sep (c : ascii) : bool :=
  match c with
  | "-"%char | "_"%char | "|"%char => true
  | _ => false
  end.

Definition is_space (c : ascii) : bool :=
  match c with " "%char => true | _ => false end.

(** [re.sub('[-_|]', ' ', s)]: every character of the class becomes a
    space. *)
Fixpoint sub_seps (s : string) : string :=
  match s with
  | EmptyString => EmptyString
  | String c s' => String (if is_sep c then " "%char else c) (sub_seps s')
  end.

(** The rest of [s] after its leading spaces. *)
Fixpoint skip_spaces (s : string) : string :=
  match s with
  | String c s' => if is_space c then skip_spaces s' else s
  | EmptyString => EmptyString
  end.

(** [re.sub(' +', '-', s)]: matches are found left to right and [+] is
    greedy, so each match is a maximal run of spaces; the run is replaced
    by one hyphen.  [in_run] tells that the previous character was a space
    of the run being replaced. *)
Fixpoint sub_spaces_from (in_run : bool) (s : string) : string :=
  match s with
  | EmptyString => EmptyString
  | String c s' =>
      if is_space c
      then (if in_run then sub_spaces_from true s'
            else String "-"%char (sub_spaces_from true s'))
      else String c (sub_spaces_from false s')
  end.

Definition sub_spaces (s : string) : string := sub_spaces_from false s.

(** [s.split(sep)[0]] for a one-character separator: the text before the
    first occurrence of [sep], the whole string when there is none. *)
Fixpoint split_head (sep : ascii) (s : string) : string :=
  match s with
  | EmptyString => EmptyString
  | String c s' =>
      if Ascii.eqb c sep then EmptyString else String c (split_head sep s')
  end.

(** [s[0:n]] *)
Fixpoint slice_to (n : nat) (s : string) : string :=
  match n, s with
  | S n', String c s' => String c (slice_to n' s')
  | _, _ => EmptyString
  end.

(** [sep.join(l)] *)
Fixpoint join (sep : string) (l : list string) : string :=
  match l with
  | [] => ""
  | [x] => x
  | x :: l' => x +:+ sep +:+ join sep l'
  end.

(** [s.startswith(p)] *)
Fixpoint startswith (s p : string) {struct p} : bool :=
  match p with
  | EmptyString => true
  | String a p' =>
      match s with
      | String b s' => Ascii.eqb a b && startswith s' p'
      | EmptyString => false
      end
  end.

(** [s.endswith(suf)]: some tail of [s] is [suf]. *)
Fixpoint endswith (s suf : string) : bool :=
  if decide (s = suf) then true
  else match s with
       | EmptyString => false
       | String _ s' => endswith s' suf
       end.

(** [s.removesuffix(suf)] *)
Definition removesuffix (s suf : string) : string :=
  if endswith s suf
  then slice_to (String.length s - String.length suf) s
  else s.

Definition contains_char (c : ascii) (s : string) : bool :=
  existsb (Ascii.eqb c) (list_ascii_of_string s).

Definition hex_digit (n : nat) : ascii :=
  match n with
  | 0 => "0" | 1 => "1" | 2 => "2" | 3 => "3" | 4 => "4" | 5 => "5"
  | 6 => "6" | 7 => "7" | 8 => "8" | 9 => "9" | 10 => "a" | 11 => "b"
  | 12 => "c" | 13 => "d" | 14 => "e" | _ => "f"
  end%char%nat.

Definition backslash : ascii := "\"%char.
Definition squote : ascii := "'"%char.
Definition dquote : ascii := "034"%char.

(** One character inside [repr(s)], [q] being the quote in use. *)
Definition repr_char (q c : ascii) : string :=
  let n := nat_of_ascii c in
  if Ascii.eqb c q || Ascii.eqb c backslash then String backslash (String c "")
  else if Ascii.eqb c "009"%char then String backslash "t"
  else if Ascii.eqb c "010"%char then String backslash "n"
  else if Ascii.eqb c "013"%char then String backslash "r"
  else if ((n <? 32) || (n =? 127))%nat
    then String backslash
           (String "x" (String (hex_digit (n / 16)) (String (hex_digit (n mod 16)) "")))
  else String c "".

Fixpoint repr_body (q : ascii) (s : string) : string :=
  match s with
  | EmptyString => EmptyString
  | String c s' => repr_char q c +:+ repr_body q s'
  end.

(** [repr(s)]: single quotes, unless the text has a single quote and no
    double quote. *)
Definition repr (s : string) : string :=
  let q := if contains_char squote s && negb (contains_char dquote s)
           then dquote else squote in
  String q (repr_body q s +:+ String q "").

End PyStr.

(** ** JSON values, as [json.loads] builds them *)

#[warning="-register-all"]
Inductive json : Type :=
| JNull
| JBool (b : bool)
| JInt (n : Z)
| JStr (s : string)
| JList (l : list json)
| JDict (d : list (string * json)).

(** A [dict] under construction: bindings in insertion order. *)
Abbreviation pydict := (list (string * json)).

(** ** Exceptions and the error monad *)

Inductive exn : Type :=
| KeyError (k : json)
| TypeError
| AttributeError
| IndexError
| FileNotFoundError
| Exception (msg : string).

Inductive result (A : Type) : Type :=
| Ok (a : A)
| Raise (e : exn).
Arguments Ok {A} a.
Arguments Raise {A} e.

Global Instance result_ret : MRet result := @Ok.
Global Instance result_bind : MBind result := λ A B f m,
  match m with
  | Ok a => f a
  | Raise e => Raise e
  end.

(** ** Python built-ins on JSON values *)

Module Py.

(** [repr(v)] *)
Fixpoint repr (v : json) : string :=
  match v with
  | JNull => "None"
  | JBool true => "True"
  | JBool false => "False"
  | JInt n => pretty n
  | JStr s => PyStr.repr s
  | JList l => "[" +:+ PyStr.join ", " (map repr l) +:+ "]"
  | JDict d =>
      "{" +:+ PyStr.join ", "
                (map (λ kv, PyStr.repr (fst kv) +:+ ": " +:+ repr (snd kv)) d)
          +:+ "}"
  end.

(** [str(v)], which is what a [{}] field of [str.format] inserts. *)
Definition str (v : json) : string :=
  match v with
  | JStr s => s
  | _ => repr v
  end.

(** [d[k]] by position in an association list. *)
Fixpoint assoc (k : string) (d : pydict) : option json :=
  match d with
  | [] => None
  | (k', v) :: d' => if decide (k' = k) then Some v else assoc k d'
  end.

(** [d[k] = v] on a dict: an existing key keeps its place and takes the
    new value; a new key goes last. *)
Fixpoint dict_set (k : string) (v : json) (d : pydict) : pydict :=
  match d with
  | [] => [(k, v)]
  | (k', v') :: d' =>
      if decide (k' = k) then (k, v) :: d' else (k', v') :: dict_set k v d'
  end.

(** [d.update(other)] *)
Definition dict_update (d other : pydict) : pydict :=
  fold_left (λ acc kv, dict_set (fst kv) (snd kv) acc) other d.

(** [v[k]] for a string key [k]. *)
Definition getitem (v : json) (k : string) : result json :=
  match v with
  | JDict d =>
      match assoc k d with
      | Some x => Ok x
      | None => Raise (KeyError (JStr k))
      end
  | _ => Raise TypeError
  end.

(** [v.get(k, default)] *)
Definition get (v : json) (k : string) (default : json) : result json :=
  match v with
  | JDict d => Ok (from_option id default (assoc k d))
  | _ => Raise AttributeError
  end.

(** [len(v)] *)
Definition len (v : json) : result nat :=
  match v with
  | JList l => Ok (length l)
  | JStr s => Ok (String.length s)
  | JDict d => Ok (length d)
  | _ => Raise TypeError
  end.

(** The elements [iter(v)] yields. *)
Definition iter (v : json) : result (list json) :=
  match v with
  | JList l => Ok l
  | JStr s => Ok (map (λ c, JStr (String c "")) (list_ascii_of_string s))
  | JDict d => Ok (map (λ kv, JStr (fst kv)) d)
  | _ => Raise TypeError
  end.

(** [v[0]] *)
Definition getitem0 (v : json) : result json :=
  match v with
  | JList (x :: _) => Ok x
  | JList [] => Raise IndexError
  | JStr (String c _) => Ok (JStr (String c ""))
  | JStr EmptyString => Raise IndexError
  | JDict _ => Raise (KeyError (JInt 0))
  | _ => Raise TypeError
  end.

(** [v == n] for an integer literal [n] ([True == 1] holds in Python). *)
Definition eq_int (v : json) (n : Z) : bool :=
  match v with
  | JInt z => Z.eqb z n
  | JBool b => Z.eqb (if b then 1 else 0) n
  | _ => false
  end.

(** [for index, x in enumerate(l): d = body index x d], stopping at the
    first exception. *)
Fixpoint for_enumerate {D : Type} (body : nat → json → D → result D)
    (index : nat) (l : list json) (d : D) : result D :=
  match l with
  | [] => Ok d
  | x :: l' => d' ← body index x d; for_enumerate body (S index) l' d'
  end.

End Py.

Notation "v .[ k ]" := (Py.getitem v k) (at level 1, format "v .[ k ]").

(** ** [class BWItem] *)

Module BWItem.

(** [BWItem.item_type] *)
Definition item_type (self : json) : result string :=
  t ← self.["type"];
  if Py.eq_int t 1 then Ok "login"
  else if Py.eq_int t 2 then Ok "note"
  else if Py.eq_int t 3 then Ok "card"
  else if Py.eq_int t 4 then Ok "identity"
  else Raise (Exception ("Unknown item type: " +:+ Py.str t)).

(** [x.split('-')], which only a [str] has. *)
Definition split_dash_head (x : json) : result string :=
  match x with
  | JStr s => Ok (PyStr.split_head "-" s)
  | _ => Raise AttributeError
  end.

(** [re.sub(pattern, repl, x)] wants a [str]. *)
Definition re_sub (f : string → string) (x : json) : result string :=
  match x with
  | JStr s => Ok (f s)
  | _ => Raise TypeError
  end.

(** [BWItem.passname] *)
Definition passname (self : json) : result string :=
  id ← self.["id"];
  id_head ← split_dash_head id;
  name ← self.["name"];
  name ← re_sub PyStr.sub_seps name;
  name ← Ok (PyStr.sub_spaces name);
  ty ← item_type self;
  Ok (PyStr.lower name +:+ "-" +:+ ty +:+ "-" +:+ PyStr.slice_to 4 id_head).

(** [d[k] = src[key]] *)
Definition copy_key (src : json) (key k : string) (d : pydict) : result pydict :=
  v ← src.[key]; Ok (Py.dict_set k v d).

(** [BWItem.format_card] *)
Definition format_card (card : json) : result pydict :=
  d ← Ok [];
  d ← copy_key card "cardholderName" "Card Holder Name" d;
  d ← copy_key card "brand" "Card Brand" d;
  d ← copy_key card "number" "Card Number" d;
  m ← card.["expMonth"];
  y ← card.["expYear"];
  d ← Ok (Py.dict_set "Card Expire MM/YYYY" (JStr (Py.str m +:+ "/" +:+ Py.str y)) d);
  d ← copy_key card "code" "Card Security Code" d;
  Ok d.

(** [BWItem.format_identity] *)
Definition format_identity (identity : json) : result pydict :=
  d ← Ok [];
  d ← copy_key identity "title" "ID Title" d;
  d ← copy_key identity "firstName" "ID FirstName" d;
  d ← copy_key identity "middleName" "ID MiddleName" d;
  d ← copy_key identity "lastName" "ID LastName" d;
  d ← copy_key identity "address1" "ID Address1" d;
  d ← copy_key identity "address2" "ID Address2" d;
  d ← copy_key identity "address3" "ID Address3" d;
  d ← copy_key identity "city" "ID City" d;
  d ← copy_key identity "state" "ID State" d;
  d ← copy_key identity "postalCode" "ID PostalCode" d;
  d ← copy_key identity "country" "ID Country" d;
  d ← copy_key identity "company" "ID Company" d;
  d ← copy_key identity "email" "ID Email" d;
  d ← copy_key identity "phone" "ID Phone" d;
  d ← copy_key identity "ssn" "ID SSN" d;
  d ← copy_key identity "username" "ID Username" d;
  d ← copy_key identity "passportNumber" "ID Passport Number" d;
  d ← copy_key identity "licenseNumber" "ID License Number" d;
  Ok d.

(** The key of the URI at position [index] of a list of several. *)
Definition url_key (index : nat) : string := "URL " +:+ pretty (index + 1)%nat.

(** [BWItem.format_login] *)
Definition format_login (login : json) : result pydict :=
  d ← Ok [];
  d ← copy_key login "username" "Username" d;
  d ← copy_key login "password" "Password" d;
  d ← copy_key login "totp" "TOTP" d;
  uris ← Py.get login "uris" (JList []);
  n ← Py.len uris;
  if (n =? 1)%nat then
    u ← Py.getitem0 uris;
    copy_key u "uri" "URL" d
  else
    us ← (x ← Py.get login "uris" (JList []); Py.iter x);
    Py.for_enumerate (λ index uri d, copy_key uri "uri" (url_key index) d) 0 us d.

Definition custom_field_key (index : nat) (name : json) : string :=
  "[Custom Field " +:+ pretty (index + 1)%nat +:+ "] " +:+ Py.str name.

Definition attachment_key (index : nat) (what : string) : string :=
  "Attachment " +:+ pretty index +:+ " " +:+ what.

(** The type specific fields: the [if]/[elif] chain of [BWItem.format]. *)
Definition type_specific (item : json) (item_type : string) (d : pydict)
    : result pydict :=
  if decide (item_type = "login") then
    login ← item.["login"];
    other ← format_login login;
    Ok (Py.dict_update d other)
  else if decide (item_type = "note") then
    Ok d
  else if decide (item_type = "card") then
    card ← item.["card"];
    other ← format_card card;
    Ok (Py.dict_update d other)
  else if decide (item_type = "identity") then
    identity ← item.["identity"];
    other ← format_identity identity;
    Ok (Py.dict_update d other)
  else Ok d.

(** The dict [d] that [BWItem.format] fills, as it stands before the
    final join. *)
Definition format_dict (self : json) : result pydict :=
  d ← Ok [];
  item ← Ok self;
  item_type ← item_type self;
  d ← copy_key item "name" "Name" d;
  d ← type_specific item item_type d;
  fields ← (x ← Py.get item "fields" (JList []); Py.iter x);
  d ← Py.for_enumerate
        (λ index field d,
           name ← field.["name"];
           fieldname ← Ok (custom_field_key index name);
           copy_key field "value" fieldname d)
        0 fields d;
  attachments ← (x ← Py.get item "attachments" (JList []); Py.iter x);
  d ← Py.for_enumerate
        (λ index attachment d,
           d ← copy_key attachment "fileName" (attachment_key index "File Name") d;
           d ← copy_key attachment "sizeName" (attachment_key index "File Size") d;
           copy_key attachment "url" (attachment_key index "URL") d)
        0 attachments d;
  copy_key item "notes" "Notes" d.

(** [v is None] *)
Definition is_none (v : json) : bool :=
  match v with JNull => true | _ => false end.

(** The bindings of [d] that pass the filter [if not v is None]. *)
Definition emitted (d : pydict) : pydict :=
  filter (λ kv, is_none (snd kv) = false) d.

(** ["{}: {}".format(k, v)] *)
Definition line (kv : string * json) : string :=
  fst kv +:+ ": " +:+ Py.str (snd kv).

(** The last two statements of [BWItem.format], on the filled dict. *)
Definition render (d : pydict) : string :=
  PyStr.join PyStr.nl (map line (emitted d)) +:+ PyStr.nl.

(** [BWItem.format] *)
Definition format (self : json) : result string :=
  d ← format_dict self;
  Ok (render d).

End BWItem.

(** ** The world outside the script

    The script acts on three things: the password store directory, its own
    standard output, and the two command line tools it runs.  [files] maps a
    file name inside the password store directory to the text stored in it
    ([pass] encrypts it; the model keeps the text).  [effects] records every
    change the script makes to the directory, oldest first. *)

Inductive effect : Type :=
| Removed (path : string)
| Inserted (name content : string).

Record world : Type := World {
  files : gmap string string;
  stdout : list string;
  effects : list effect;
  unlock_runs : nat
}.

(** What the [bw] tool answers: the output of its [n]-th [unlock --raw] run
    (counting from 0), and the item list, as [json.loads] returns it. *)
Record bw_tool : Type := BwTool {
  unlock_output : nat → string;
  vault_items : list json
}.

(** Programs that act on the world and may raise. *)
Definition prog (A : Type) : Type := world → world * result A.

Global Instance prog_ret : MRet prog := λ A a w, (w, Ok a).
Global Instance prog_bind : MBind prog := λ A B f m w,
  match m w with
  | (w', Ok a) => f a w'
  | (w', Raise e) => (w', Raise e)
  end.

Definition lift {A : Type} (r : result A) : prog A := λ w, (w, r).

(** [print(line)] *)
Definition print (line : string) : prog unit := λ w,
  (World (files w) (stdout w ++ [line]) (effects w) (unlock_runs w), Ok tt).

(** [for x in l: body x], stopping at the first exception. *)
Fixpoint for_each {A : Type} (body : A → prog unit) (l : list A) : prog unit :=
  match l with
  | [] => mret tt
  | x :: l' => _ ← body x; for_each body l'
  end.

(** ** [class Cli] *)

Module Cli.

(** The line [Cli.run] prints for a command when [log_output] is set.  The
    command itself runs outside the script; what it answers and what it
    does is part of the world. *)
Definition log_line (command : list string) : string :=
  "> " +:+ PyStr.join " " command.

End Cli.

(** ** [class BWCli] *)

Module BWCli.

(** [BWCli.unlock].  The loop has no bound; [fuel] is the number of
    attempts the model follows, and [None] says that all of them gave an
    empty output. *)
Fixpoint unlock (bw : bw_tool) (fuel : nat) (w : world) : option (world * string) :=
  match fuel with
  | O => None
  | S fuel' =>
      let session := unlock_output bw (unlock_runs w) in
      let w' := World (files w)
                      (stdout w ++ [Cli.log_line ["bw"; "unlock"; "--raw"]])
                      (effects w) (S (unlock_runs w)) in
      if (0 <? String.length session)%nat then Some (w', session)
      else unlock bw fuel' w'
  end.

(** [BWCli.sync] *)
Definition sync (session : string) : prog unit :=
  print (Cli.log_line ["bw"; "--session"; session; "sync"]).

(** [BWCli.list_items], already parsed. *)
Definition list_items (bw : bw_tool) (session : string) : prog (list json) :=
  _ ← print (Cli.log_line ["bw"; "--session"; session; "list"; "items"]);
  mret (vault_items bw).

End BWCli.

(** ** [class PassCli] *)

Module PassCli.

(** [PassCli.get_file_path], relative to the password store directory. *)
Definition get_file_path (name : string) : string := name +:+ ".gpg".

(** [PassCli.insert]: runs [pass insert -m name] with [content] on its
    input, without a log line.  The tool stores [content] as the entry
    [name], that is in the file [get_file_path name]. *)
Definition insert (name content : string) : prog unit := λ w,
  (World (<[get_file_path name := content]> (files w)) (stdout w)
         (effects w ++ [Inserted name content]) (unlock_runs w),
   Ok tt).

(** [PassCli.remove_force]: [os.remove] of the entry's file. *)
Definition remove_force (name : string) : prog unit := λ w,
  match files w !! get_file_path name with
  | Some _ =>
      (World (delete (get_file_path name) (files w)) (stdout w)
             (effects w ++ [Removed (get_file_path name)]) (unlock_runs w),
       Ok tt)
  | None => (w, Raise FileNotFoundError)
  end.

(** [PassCli.pass_exists] *)
Definition pass_exists (name : string) : prog bool := λ w,
  (w, Ok (bool_decide (is_Some (files w !! get_file_path name)))).

(** The entries of a directory: its files named [<name>.gpg], without the
    extension.  The directory is listed in the order of the map. *)
Definition entry_names (m : gmap string string) : list string :=
  (λ n, PyStr.removesuffix n ".gpg")
    <$> filter (λ n, PyStr.endswith n ".gpg" = true) (map_to_list m).*1.

(** [PassCli.list_pass_names] *)
Definition list_pass_names : prog (list string) := λ w,
  (w, Ok (entry_names (files w))).

End PassCli.

(** ** [main] *)

Definition stars : string :=
  "************************************************************".

(** The body of the loop over the items. *)
Definition sync_item (bw_item : json) : prog unit :=
  name ← lift (BWItem.passname bw_item);
  content ← lift (BWItem.format bw_item);
  exists_ ← PassCli.pass_exists name;
  _ ← (if exists_ : bool then
         _ ← PassCli.remove_force name;
         print ("Removed existing pass entry " +:+ name)
       else mret tt);
  _ ← PassCli.insert name content;
  print ("Inserted " +:+ pretty (String.length content) +:+ " bytes into " +:+ name).

(** [[bw_item.passname() for bw_item in bw_items]] *)
Fixpoint passnames (bw_items : list json) : result (list string) :=
  match bw_items with
  | [] => Ok []
  | x :: l => n ← BWItem.passname x; ns ← passnames l; Ok (n :: ns)
  end.

(** [[entry for entry in existing if not entry in synced]] *)
Definition ignored_entries (existing synced : list string) : list string :=
  filter (λ entry, entry ∉ synced) existing.

(** [main], from the listing of the store on. *)
Definition sync_store (bw_items : list json) : prog unit :=
  existing_pass_entries ← PassCli.list_pass_names;
  _ ← for_each sync_item bw_items;
  synced_pass_entries ← lift (passnames bw_items);
  ignored_pass_entries ← mret (ignored_entries existing_pass_entries synced_pass_entries);
  if (0 <? length ignored_pass_entries)%nat then
    _ ← print "WARNING: Ignored the following password entries. Possibly deleted from bitwarden?";
    for_each (λ entry, print (PyStr.tab +:+ entry)) ignored_pass_entries
  else mret tt.

(** [main]; [None] when [unlock] is still waiting after [fuel] attempts. *)
Definition main (bw : bw_tool) (fuel : nat) (w : world) : option (world * result unit) :=
  let p : prog unit :=
    _ ← print stars;
    _ ← print "Note: To ensure a full refresh, logout and login again with:";
    _ ← print (PyStr.tab +:+ "bw logout");
    _ ← print (PyStr.tab +:+ "bw login");
    _ ← print stars;
    print "Unlocking bitwarden" in
  match p w with
  | (w, Ok _) =>
      match BWCli.unlock bw fuel w with
      | None => None
      | Some (w, session) =>
          Some ((_ ← print "Syncing bitwarden passwords";
                 _ ← BWCli.sync session;
                 _ ← print "Listing bitwarden items";
                 items ← BWCli.list_items bw session;
                 sync_store items) w)
      end
  | (w, Raise e) => Some (w, Raise e)
  end.

(** ** The bindings of the body, one after the other

    [BWItem.format] fills a dict, where a key written twice would keep its
    first place and its last value.  [Entries.of_item] reads the same values
    in the same order and lists the bindings one after the other;
    [format_dict_entries] below shows that the two agree, because no key is
    written twice. *)

Module Entries.

(** The bindings of the elements of [l], numbered from [index] on. *)
Fixpoint collect (f : nat → json → result pydict) (index : nat) (l : list json)
    : result pydict :=
  match l with
  | [] => Ok []
  | x :: l' =>
      kvs ← f index x;
      rest ← collect f (S index) l';
      Ok (kvs ++ rest)
  end.

Definition of_uri (index : nat) (uri : json) : result pydict :=
  v ← uri.["uri"]; Ok [(BWItem.url_key index, v)].

Definition of_field (index : nat) (field : json) : result pydict :=
  name ← field.["name"];
  v ← field.["value"];
  Ok [(BWItem.custom_field_key index name, v)].

Definition of_attachment (index : nat) (attachment : json) : result pydict :=
  a ← attachment.["fileName"];
  b ← attachment.["sizeName"];
  c ← attachment.["url"];
  Ok [(BWItem.attachment_key index "File Name", a);
      (BWItem.attachment_key index "File Size", b);
      (BWItem.attachment_key index "URL", c)].

Definition of_uris (login : json) : result pydict :=
  uris ← Py.get login "uris" (JList []);
  n ← Py.len uris;
  if (n =? 1)%nat then
    u ← Py.getitem0 uris;
    v ← u.["uri"];
    Ok [("URL", v)]
  else
    us ← Py.iter uris;
    collect of_uri 0 us.

Definition of_login (login : json) : result pydict :=
  u ← login.["username"];
  p ← login.["password"];
  t ← login.["totp"];
  urls ← of_uris login;
  Ok ([("Username", u); ("Password", p); ("TOTP", t)] ++ urls).

Definition of_type (item : json) (item_type : string) : result pydict :=
  if decide (item_type = "login") then
    login ← item.["login"]; of_login login
  else if decide (item_type = "note") then Ok []
  else if decide (item_type = "card") then
    card ← item.["card"]; BWItem.format_card card
  else if decide (item_type = "identity") then
    identity ← item.["identity"]; BWItem.format_identity identity
  else Ok [].

Definition of_fields (item : json) : result pydict :=
  fields ← (x ← Py.get item "fields" (JList []); Py.iter x);
  collect of_field 0 fields.

Definition of_attachments (item : json) : result pydict :=
  attachments ← (x ← Py.get item "attachments" (JList []); Py.iter x);
  collect of_attachment 0 attachments.

Definition of_item (item : json) : result pydict :=
  item_type ← BWItem.item_type item;
  name ← item.["name"];
  typed ← of_type item item_type;
  custom ← of_fields item;
  attached ← of_attachments item;
  notes ← item.["notes"];
  Ok ([("Name", name)] ++ typed ++ custom ++ attached ++ [("Notes", notes)]).

End Entries.

(** The first character of a key tells its kind. *)
Definition head_char (s : string) : option ascii :=
  match s with
  | EmptyString => None
  | String c _ => Some c
  end.

Definition is_digit (c : ascii) : bool :=
  match Ascii.is_nat c with Some _ => true | None => false end.

Fixpoint all_digits (s : string) : bool :=
  match s with
  | EmptyString => true
  | String c s' => is_digit c && all_digits s'
  end.

(** A run of digits ends where the first other character stands. *)
Definition stops_digits (t : string) : Prop :=
  match head_char t with
  | Some c => is_digit c = false
  | None => True
  end.

(** The keys of the type specific fields start with one of these letters;
    no other key of the body does, but for [Name] and [Notes]. *)
Definition typed_key (k : string) : bool :=
  match head_char k with
  | Some c => bool_decide (c ∈ ["U"; "P"; "T"; "C"; "I"]%char)
  | None => false
  end.

Definition card_keys : list string :=
  ["Card Holder Name"; "Card Brand"; "Card Number"; "Card Expire MM/YYYY";
   "Card Security Code"].

Definition identity_keys : list string :=
  ["ID Title"; "ID FirstName"; "ID MiddleName"; "ID LastName"; "ID Address1";
   "ID Address2"; "ID Address3"; "ID City"; "ID State"; "ID PostalCode";
   "ID Country"; "ID Company"; "ID Email"; "ID Phone"; "ID SSN";
   "ID Username"; "ID Passport Number"; "ID License Number"].

(** The value [v] stands in the record [d] under [label], and a line is
    written for it exactly when it is not null. *)
Definition written_as (d : pydict) (label : string) (v : json) : Prop :=
  (label, v) ∈ d
  ∧ (v = JNull → label ∉ (BWItem.emitted d).*1)
  ∧ (v ≠ JNull → (label, v) ∈ BWItem.emitted d).

(** Every binding as a line of its own, each with its newline. *)
Definition text_of (kvs : pydict) : string :=
  fold_right (λ kv s, BWItem.line kv +:+ PyStr.nl +:+ s) "" kvs.

(** The bindings of the URI values [vs] of a list of several, the first at
    position [index]. *)
Fixpoint url_entries (index : nat) (vs : list json) : pydict :=
  match vs with
  | [] => []
  | v :: vs' => (BWItem.url_key index, v) :: url_entries (S index) vs'
  end.

(** A piece of text after which a new line starts. *)
Definition at_line_start (pre : string) : Prop :=
  pre = "" ∨ PyStr.endswith pre PyStr.nl = true.

(** ** Items that have all their keys *)

Module Schema.

(** [v] is a dict with the keys [keys]. *)
Definition has_keys (keys : list string) (v : json) : bool :=
  match v with
  | JDict d => forallb (λ k, bool_decide (is_Some (Py.assoc k d))) keys
  | _ => false
  end.

(** The dict [v] has no key [key], or has a list under it whose elements
    satisfy [p]. *)
Definition optional_list (key : string) (p : json → bool) (v : json) : bool :=
  match Py.get v key (JList []) with
  | Ok (JList l) => forallb p l
  | _ => false
  end.

Definition login_keys : list string := ["username"; "password"; "totp"].

Definition card_keys : list string :=
  ["cardholderName"; "brand"; "number"; "expMonth"; "expYear"; "code"].

Definition identity_keys : list string :=
  ["title"; "firstName"; "middleName"; "lastName"; "address1"; "address2";
   "address3"; "city"; "state"; "postalCode"; "country"; "company"; "email";
   "phone"; "ssn"; "username"; "passportNumber"; "licenseNumber"].

(** The type code is one of the four, and the payload of the type has the
    keys its formatter reads. *)
Definition payload (item : json) : bool :=
  match item.["type"] with
  | Ok (JInt t) =>
      if t =? 1 then
        match item.["login"] with
        | Ok login =>
            has_keys login_keys login
            && optional_list "uris" (has_keys ["uri"]) login
        | Raise _ => false
        end
      else if t =? 2 then true
      else if t =? 3 then
        match item.["card"] with
        | Ok card => has_keys card_keys card
        | Raise _ => false
        end
      else if t =? 4 then
        match item.["identity"] with
        | Ok person => has_keys identity_keys person
        | Raise _ => false
        end
      else false
  | _ => false
  end.

(** The identifier and the display name are strings. *)
Definition named (item : json) : bool :=
  match item.["id"], item.["name"] with
  | Ok (JStr _), Ok (JStr _) => true
  | _, _ => false
  end.

(** An item that [BWItem.passname] and [BWItem.format] can read. *)
Definition item (v : json) : bool :=
  named v
  && has_keys ["notes"] v
  && payload v
  && optional_list "fields" (has_keys ["name"; "value"]) v
  && optional_list "attachments" (has_keys ["fileName"; "sizeName"; "url"]) v.

End Schema.

(** ** The loop of [main], seen from outside *)

(** The names and bodies the loop hands to [pass insert]: those of the
    items up to the first one that raises. *)
Fixpoint writes_of (bw_items : list json) : list (string * string) :=
  match bw_items with
  | [] => []
  | x :: l =>
      match BWItem.passname x, BWItem.format x with
      | Ok name, Ok content => (name, content) :: writes_of l
      | _, _ => []
      end
  end.

(** How the loop ends: with the exception of the first item that raises. *)
Fixpoint loop_result (bw_items : list json) : result unit :=
  match bw_items with
  | [] => Ok tt
  | x :: l =>
      match BWItem.passname x, BWItem.format x with
      | Ok _, Ok _ => loop_result l
      | Ok _, Raise e => Raise e
      | Raise e, _ => Raise e
      end
  end.

(** The directory after the writes [ws]. *)
Definition store_writes (ws : list (string * string)) (m : gmap string string)
    : gmap string string :=
  foldl (λ m nc, <[PassCli.get_file_path nc.1 := nc.2]> m) m ws.

(** The changes to the directory that the writes [ws] make, from the
    directory [m] on: an entry is removed when it is there, then inserted. *)
Fixpoint loop_effects (m : gmap string string) (ws : list (string * string))
    : list effect :=
  match ws with
  | [] => []
  | (name, content) :: ws' =>
      (if bool_decide (is_Some (m !! PassCli.get_file_path name))
       then [Removed (PassCli.get_file_path name)] else [])
      ++ Inserted name content
      :: loop_effects (<[PassCli.get_file_path name := content]> m) ws'
  end.

(** The lines the loop prints. *)
Fixpoint loop_output (m : gmap string string) (ws : list (string * string))
    : list string :=
  match ws with
  | [] => []
  | (name, content) :: ws' =>
      (if bool_decide (is_Some (m !! PassCli.get_file_path name))
       then ["Removed existing pass entry " +:+ name] else [])
      ++ ("Inserted " +:+ pretty (String.length content) +:+ " bytes into " +:+ name)
      :: loop_output (<[PassCli.get_file_path name := content]> m) ws'
  end.

(** The [pass insert] calls among the effects. *)
Definition inserted (es : list effect) : list (string * string) :=
  flat_map (λ e, match e with
                 | Inserted name content => [(name, content)]
                 | Removed _ => []
                 end) es.

(** The warning at the end of [main]. *)
Definition orphan_warning (orphans : list string) : list string :=
  match orphans with
  | [] => []
  | _ :: _ =>
      "WARNING: Ignored the following password entries. Possibly deleted from bitwarden?"
      :: ((λ entry, PyStr.tab +:+ entry) <$> orphans)
  end.

(** The body the writes [ws] leave under the file [path]: that of the last
    write to it. *)
Definition last_write (path : string) (ws : list (string * string))
    (before : option string) : option string :=
  foldl (λ acc nc, if decide (PassCli.get_file_path nc.1 = path)
                   then Some nc.2 else acc) before ws.

(** ** The entry name, in the words of the specification *)

Module Spec.

Definition type_label (t : Z) : string :=
  match t with
  | 1 => "login"
  | 2 => "note"
  | 3 => "card"
  | _ => "identity"
  end.

(** Every maximal run of spaces becomes one hyphen: at a space, the whole
    run is skipped and a hyphen stands for it.  [fuel] bounds the number of
    steps; the length of the text is enough. *)
Fixpoint hyphenate_fuel (fuel : nat) (s : string) : string :=
  match fuel, s with
  | S fuel', String c s' =>
      if PyStr.is_space c
      then String "-" (hyphenate_fuel fuel' (PyStr.skip_spaces s'))
      else String c (hyphenate_fuel fuel' s')
  | _, _ => ""
  end.

Definition hyphenate_runs (s : string) : string :=
  hyphenate_fuel (String.length s) s.

Definition is_hex (c : ascii) : bool :=
  let n := nat_of_ascii c in
  ((48 <=? n) && (n <=? 57) || (97 <=? n) && (n <=? 102)
   || (65 <=? n) && (n <=? 70))%nat.

(** [s] starts with [n] hexadecimal digits. *)
Fixpoint hex_head (n : nat) (s : string) : bool :=
  match n, s with
  | O, _ => true
  | S n', String c s' => is_hex c && hex_head n' s'
  | S _, EmptyString => false
  end.

(** The display name lower-cased first, then its separators turned into
    spaces, then every run of spaces turned into one hyphen; the type
    label and the first four characters of the identifier follow. *)
Definition canonical_name (id s : string) (t : Z) : string :=
  hyphenate_runs (PyStr.sub_seps (PyStr.lower s))
    +:+ "-" +:+ type_label t +:+ "-" +:+ PyStr.slice_to 4 id.

(** The lines [URL n: v], [URL n+1: v'], ... for the values [vs]. *)
Fixpoint numbered_url_lines (n : nat) (vs : list json) : string :=
  match vs with
  | [] => ""
  | v :: vs' =>
      "URL " +:+ pretty n +:+ ": " +:+ Py.str v +:+ PyStr.nl
        +:+ numbered_url_lines (S n) vs'
  end.

End Spec.

(** ** Sample data *)

Module Sample.

(** A login with one URI, no password, three custom fields of which the
    second is null, and one attachment. *)
Definition bank : json :=
  JDict
    [("id", JStr "abc12345-6789-4abc-8def-0123456789ab");
     ("name", JStr "My Bank");
     ("type", JInt 1);
     ("login",
      JDict [("username", JStr "alice"); ("password", JNull); ("totp", JNull);
             ("uris", JList [JDict [("uri", JStr "https://bank.example")]])]);
     ("fields",
      JList [JDict [("name", JStr "pin"); ("value", JStr "1234")];
             JDict [("name", JStr "hint"); ("value", JNull)];
             JDict [("name", JStr "branch"); ("value", JStr "north")]]);
     ("attachments",
      JList [JDict [("fileName", JStr "card.pdf"); ("sizeName", JStr "12 KB");
                    ("url", JStr "https://vault.example/card.pdf")]]);
     ("notes", JStr "call before noon")].

(** A login with two URIs. *)
Definition mail : json :=
  JDict
    [("id", JStr "0123abcd-6789-4abc-8def-0123456789ab");
     ("name", JStr "Mail");
     ("type", JInt 1);
     ("login",
      JDict [("username", JStr "bob"); ("password", JStr "hunter2"); ("totp", JNull);
             ("uris", JList [JDict [("uri", JStr "https://mail.example")];
                             JDict [("uri", JStr "https://webmail.example")]])]);
     ("notes", JNull)].

(** A login without URIs. *)
Definition door : json :=
  JDict
    [("id", JStr "77aa12cd-6789-4abc-8def-0123456789ab");
     ("name", JStr "Door code");
     ("type", JInt 1);
     ("login",
      JDict [("username", JNull); ("password", JStr "4711"); ("totp", JNull)]);
     ("notes", JNull)].

(** A secure note. *)
Definition wifi : json :=
  JDict
    [("id", JStr "def67890-6789-4abc-8def-0123456789ab");
     ("name", JStr "Wifi");
     ("type", JInt 2);
     ("notes", JStr "guest network")].

(** A card without an expiry date. *)
Definition card : json :=
  JDict
    [("id", JStr "9f8e7d6c-6789-4abc-8def-0123456789ab");
     ("name", JStr "Visa");
     ("type", JInt 3);
     ("card",
      JDict [("cardholderName", JStr "Alice A"); ("brand", JStr "Visa");
             ("number", JStr "4111111111111111"); ("expMonth", JNull);
             ("expYear", JNull); ("code", JNull)]);
     ("notes", JNull)].

(** An item of a type the script does not know. *)
Definition odd : json :=
  JDict
    [("id", JStr "5555aaaa-6789-4abc-8def-0123456789ab");
     ("name", JStr "Odd");
     ("type", JInt 5);
     ("notes", JNull)].

(** A [bw] that prints a session token at the third attempt, over a vault
    of two items. *)
Definition vault : bw_tool :=
  BwTool (λ n, if (n <? 2)%nat then "" else "c2Vzc2lvbg==") [mail; wifi].

(** A password store with the entry of [wifi] from an earlier run, an entry
    that no item of [vault] stands for, and a file that is no entry. *)
Definition store : world :=
  World {[ "wifi-note-def6.gpg" := "Name: Wifi";
           "old-login-0a0a.gpg" := "Name: Old";
           ".gpg-id" := "0xDEADBEEF" ]} [] [] 0.

End Sample.

(** The world a run ends in; the starting world when [unlock] is out of
    fuel. *)
Definition world_after (bw : bw_tool) (fuel : nat) (w : world) : world :=
  match main bw fuel w with
  | Some (w', _) => w'
  | None => w
  end.

(** ** Paths, names and keys beside the ones above *)

Module Os.

(** [os.path.join(a, b)] on a POSIX system: an absolute [b] stands alone;
    otherwise [b] goes after [a], with a slash between them unless [a] is
    empty or ends with one. *)
Definition path_join (a b : string) : string :=
  if PyStr.startswith b "/" then b
  else if bool_decide (a = "") || PyStr.endswith a "/" then a +:+ b
  else a +:+ "/" +:+ b.

End Os.

(** [PassCli.get_file_path] with the directory in front. *)
Definition full_path (directory name : string) : string :=
  Os.path_join directory (PassCli.get_file_path name).

(** [sub in s] for two strings. *)
Fixpoint contains (s sub : string) : bool :=
  PyStr.startswith s sub
  || match s with
     | EmptyString => false
     | String _ s' => contains s' sub
     end.

(** The part of the entry name that [BWItem.passname] makes of the display
    name, in the order of the code: separators, runs of spaces, lower
    case. *)
Definition name_stem (s : string) : string :=
  PyStr.lower (PyStr.sub_spaces (PyStr.sub_seps s)).

(** The first of [keys], in this order, that the dict [o] lacks. *)
Definition first_missing (keys : list string) (o : pydict) : option string :=
  find (λ k, match Py.assoc k o with Some _ => false | None => true end) keys.

(** The log lines of [n] runs of [bw unlock --raw]. *)
Definition unlock_log (n : nat) : list string :=
  replicate n (Cli.log_line ["bw"; "unlock"; "--raw"]).

(** What [main] prints before it unlocks the vault. *)
Definition banner : list string :=
  [stars;
   "Note: To ensure a full refresh, logout and login again with:";
   PyStr.tab +:+ "bw logout";
   PyStr.tab +:+ "bw login";
   stars;
   "Unlocking bitwarden"].

(** What [main] prints between the unlocking and the loop. *)
Definition session_log (session : string) : list string :=
  ["Syncing bitwarden passwords";
   Cli.log_line ["bw"; "--session"; session; "sync"];
   "Listing bitwarden items";
   Cli.log_line ["bw"; "--session"; session; "list"; "items"]].

(** ** Data for the edges of the script *)

Module Edge.

(** An item that differs from [Sample.bank] in its display name, in its
    identifier past the fourth character and in its payload. *)
Definition bank_twin : json :=
  JDict
    [("id", JStr "abc1ffff-0000-4000-8000-000000000000");
     ("name", JStr "my_bank");
     ("type", JInt 1);
     ("login",
      JDict [("username", JStr "carol"); ("password", JStr "s3cret");
             ("totp", JNull)]);
     ("notes", JNull)].

(** A card payload without a brand and without a security code. *)
Definition plain_card : pydict :=
  [("cardholderName", JStr "Alice A"); ("number", JStr "4111111111111111");
   ("expMonth", JStr "12"); ("expYear", JStr "2030")].

(** A card item that has lost its payload. *)
Definition bare_card : json :=
  JDict
    [("id", JStr "0c0c0c0c-6789-4abc-8def-0123456789ab");
     ("name", JStr "Bare");
     ("type", JInt 3);
     ("notes", JNull)].

(** An item whose display name reads as an absolute path. *)
Definition rooted : json :=
  JDict
    [("id", JStr "e4e4e4e4-6789-4abc-8def-0123456789ab");
     ("name", JStr "/tmp/Guest");
     ("type", JInt 2);
     ("notes", JNull)].

(** A [bw] that prints its token at once. *)
Definition ready (items : list json) : bw_tool := BwTool (λ _, "c2Vzc2lvbg==") items.

(** A [bw] that never prints a token. *)
Definition silent : bw_tool := BwTool (λ _, "") [Sample.wifi].

(** A vault whose second item cannot be read. *)
Definition broken_vault : bw_tool := ready [Sample.mail; Sample.odd; Sample.wifi].

(** A vault whose two items get one entry name. *)
Definition twin_vault : bw_tool := ready [Sample.bank; bank_twin].

End Edge.



(** * Properties *)

(** ** Strings *)

Section string_facts.

Lemma app_nil_r_s (s : string) : s +:+ "" = s.
Proof. induction s as [|c s IH]; [done|]. unfold String.app in *; simpl. by rewrite IH. Qed.

Lemma app_cons_s (c : ascii) (s t : string) : String c s +:+ t = String c (s +:+ t).
Proof. done. Qed.

Lemma app_nil_l_s (s : string) : "" +:+ s = s.
Proof. done. Qed.

Lemma app_assoc_s (s t u : string) : (s +:+ t) +:+ u = s +:+ t +:+ u.
Proof. induction s as [|c s IH]; [done|]. rewrite !app_cons_s. by rewrite IH. Qed.

Lemma lower_char_sep c : PyStr.is_sep (PyStr.lower_char c) = PyStr.is_sep c.
Proof. by destruct c as [[] [] [] [] [] [] [] []]. Qed.

Lemma lower_char_space c : PyStr.is_space (PyStr.lower_char c) = PyStr.is_space c.
Proof. by destruct c as [[] [] [] [] [] [] [] []]. Qed.

Lemma lower_sub_seps s :
  PyStr.lower (PyStr.sub_seps s) = PyStr.sub_seps (PyStr.lower s).
Proof.
  induction s as [|c s IH]; [done|]. simpl. rewrite IH, lower_char_sep.
  by destruct (PyStr.is_sep c).
Qed.

Lemma lower_sub_spaces_from b s :
  PyStr.lower (PyStr.sub_spaces_from b s) = PyStr.sub_spaces_from b (PyStr.lower s).
Proof.
  revert b. induction s as [|c s IH]; intros b; [done|]. simpl.
  rewrite lower_char_space.
  destruct (PyStr.is_space c), b; simpl; by rewrite ?IH.
Qed.

(** The hyphen for a run of spaces stands for the whole run. *)
Lemma sub_spaces_run s :
  PyStr.sub_spaces (String " " s)
  = String "-" (PyStr.sub_spaces (PyStr.skip_spaces s)).
Proof.
  unfold PyStr.sub_spaces. simpl. f_equal.
  induction s as [|c s IH]; [done|]. simpl.
  destruct (PyStr.is_space c) eqn:Hc; [done|]. simpl. by rewrite Hc.
Qed.

Lemma sub_spaces_other c s :
  PyStr.is_space c = false →
  PyStr.sub_spaces (String c s) = String c (PyStr.sub_spaces s).
Proof. intros Hc. unfold PyStr.sub_spaces. simpl. by rewrite Hc. Qed.

Lemma skip_spaces_length s :
  (String.length (PyStr.skip_spaces s) ≤ String.length s)%nat.
Proof.
  induction s as [|c s IH]; [done|]. simpl.
  destruct (PyStr.is_space c); simpl; lia.
Qed.

Lemma is_space_spec c : PyStr.is_space c = true → c = " "%char.
Proof. by destruct c as [[] [] [] [] [] [] [] []]. Qed.

(** The regular expression substitution does what the specification says
    of the runs of spaces. *)
Lemma sub_spaces_hyphenate s : PyStr.sub_spaces s = Spec.hyphenate_runs s.
Proof.
  unfold Spec.hyphenate_runs.
  assert (∀ fuel s, (String.length s ≤ fuel)%nat →
            Spec.hyphenate_fuel fuel s = PyStr.sub_spaces s) as H; [|by rewrite H].
  clear s. induction fuel as [|fuel IH]; intros [|c s] Hlen; try done.
  { simpl in Hlen. lia. }
  simpl in Hlen. cbn [Spec.hyphenate_fuel].
  destruct (PyStr.is_space c) eqn:Hc.
  - apply is_space_spec in Hc as ->. rewrite sub_spaces_run, IH; [done|].
    pose proof (skip_spaces_length s). lia.
  - rewrite sub_spaces_other, IH by (done || lia). done.
Qed.

Example str_of_containers :
  Py.str (JList [JInt 1; JStr "a"; JNull; JDict [("k", JBool true)]; JInt (-3)])
  = "[1, 'a', None, {'k': True}, -3]".
Proof. reflexivity. Qed.

Example sub_spaces_runs : PyStr.sub_spaces " a   b c " = "-a-b-c-".
Proof. reflexivity. Qed.

Example sub_seps_then_spaces :
  PyStr.sub_spaces (PyStr.sub_seps "My_Bank | Main - Acct") = "My-Bank-Main-Acct".
Proof. reflexivity. Qed.

Lemma slice_split_head n sep s :
  PyStr.contains_char sep (PyStr.slice_to n s) = false →
  PyStr.slice_to n (PyStr.split_head sep s) = PyStr.slice_to n s.
Proof.
  revert s. induction n as [|n IH]; intros [|c s]; simpl; try done.
  unfold PyStr.contains_char. simpl. rewrite Ascii.eqb_sym.
  destruct (Ascii.eqb c sep); [done|]. simpl. intros H. f_equal. by apply IH.
Qed.

End string_facts.

(** ** The entry name *)

Lemma item_type_code item t :
  item.["type"] = Ok (JInt t) → 1 ≤ t ≤ 4 →
  BWItem.item_type item = Ok (Spec.type_label t).
Proof.
  intros Ht Hr. unfold BWItem.item_type. rewrite Ht. simpl.
  assert (t = 1 ∨ t = 2 ∨ t = 3 ∨ t = 4) as [->|[->|[->| ->]]] by lia; done.
Qed.

(** The name for any identifier: the identifier is cut at its first hyphen,
    and up to four characters of what stands before it are used. *)
Lemma passname_first_segment (item : json) (id s : string) (t : Z) :
  item.["id"] = Ok (JStr id) →
  item.["name"] = Ok (JStr s) →
  item.["type"] = Ok (JInt t) →
  1 ≤ t ≤ 4 →
  BWItem.passname item
  = Ok (Spec.hyphenate_runs (PyStr.sub_seps (PyStr.lower s))
        +:+ "-" +:+ Spec.type_label t +:+ "-"
        +:+ PyStr.slice_to 4 (PyStr.split_head "-" id)).
Proof.
  intros Hid Hname Hty Hr.
  unfold BWItem.passname. rewrite Hid, Hname, (item_type_code _ _ Hty Hr).
  cbn [mbind result_bind BWItem.split_dash_head BWItem.re_sub].
  rewrite <- sub_spaces_hyphenate. unfold PyStr.sub_spaces.
  by rewrite lower_sub_spaces_from, lower_sub_seps.
Qed.

Lemma hex_head_no_dash n id :
  Spec.hex_head n id = true →
  PyStr.contains_char "-" (PyStr.slice_to n id) = false.
Proof.
  revert id. induction n as [|n IH]; intros [|c id]; try done.
  cbn [Spec.hex_head PyStr.slice_to]. intros [Hc Hid]%andb_prop.
  unfold PyStr.contains_char in *. cbn [list_ascii_of_string existsb].
  rewrite (IH _ Hid), orb_false_r.
  destruct (Ascii.eqb_spec "-" c) as [<-|]; done.
Qed.

(** C1.  For an item whose identifier [id] and display name [s] are strings,
    whose type code [t] is one of 1, 2, 3, 4, and whose identifier starts
    with four hexadecimal digits (a Bitwarden identifier starts with eight),
    [passname] is the lower-cased name with the separators [-], [_], [|]
    turned into spaces and every maximal run of spaces turned into one
    hyphen, followed by [-<type label>-] and the first four characters of
    [id].  Any other item with the same identifier, name and type code has
    the same [passname]. *)
Theorem passname_canonical (item : json) (id s : string) (t : Z) :
  item.["id"] = Ok (JStr id) →
  item.["name"] = Ok (JStr s) →
  item.["type"] = Ok (JInt t) →
  1 ≤ t ≤ 4 →
  Spec.hex_head 4 id = true →
  BWItem.passname item = Ok (Spec.canonical_name id s t)
  ∧ ∀ item' : json,
      item'.["id"] = item.["id"] →
      item'.["name"] = item.["name"] →
      item'.["type"] = item.["type"] →
      BWItem.passname item' = BWItem.passname item.
Proof.
  intros Hid Hname Hty Hr Hhex. split.
  - rewrite (passname_first_segment item id s t) by done.
    unfold Spec.canonical_name.
    by rewrite (slice_split_head 4 "-" id (hex_head_no_dash 4 id Hhex)).
  - intros item' Hid' Hname' Hty'.
    unfold BWItem.passname, BWItem.item_type. by rewrite Hid', Hname', Hty'.
Qed.

Lemma passname_canonical_witness :
  BWItem.passname Sample.bank = Ok "my-bank-login-abc1".
Proof.
  refine (proj1 (passname_canonical Sample.bank
                   "abc12345-6789-4abc-8def-0123456789ab" "My Bank" 1 _ _ _ _ _));
    [reflexivity | reflexivity | reflexivity | lia | reflexivity].
Defined.

(** ** Dicts *)

Section dict_facts.

Implicit Types (d kvs : pydict) (k : string) (v : json).

Lemma dict_set_fresh k v d :
  k ∉ d.*1 → Py.dict_set k v d = d ++ [(k, v)].
Proof.
  induction d as [|[k' v'] d IH]; simpl; [done|].
  rewrite not_elem_of_cons. intros [Hne Hnin].
  destruct (decide (k' = k)); [congruence|]. by rewrite IH.
Qed.

Lemma dict_set_keys k v d :
  (Py.dict_set k v d).*1 = if decide (k ∈ d.*1) then d.*1 else d.*1 ++ [k].
Proof.
  induction d as [|[k' v'] d IH]; csimpl; [done|].
  destruct (decide (k' = k)) as [->|Hne]; csimpl.
  - rewrite decide_True; [done|]. apply elem_of_cons; by left.
  - rewrite IH. destruct (decide (k ∈ d.*1)) as [Hin|Hnin].
    + rewrite decide_True; [done|]. apply elem_of_cons; by right.
    + rewrite decide_False; [done|]. rewrite not_elem_of_cons. split; congruence.
Qed.

Lemma dict_set_NoDup k v d : NoDup d.*1 → NoDup (Py.dict_set k v d).*1.
Proof.
  intros Hd. rewrite dict_set_keys. case_decide; [done|].
  apply NoDup_app. split_and!; [done| |apply NoDup_singleton].
  intros x Hx Heq%list_elem_of_singleton. by subst.
Qed.

Lemma dict_update_app d kvs1 kvs2 :
  Py.dict_update d (kvs1 ++ kvs2) = Py.dict_update (Py.dict_update d kvs1) kvs2.
Proof. unfold Py.dict_update. apply fold_left_app. Qed.

Lemma dict_update_fresh d kvs :
  NoDup kvs.*1 → (∀ k, k ∈ kvs.*1 → k ∉ d.*1) →
  Py.dict_update d kvs = d ++ kvs.
Proof.
  revert d. induction kvs as [|[k v] kvs IH]; intros d Hnd Hfresh.
  { by rewrite app_nil_r. }
  simpl in *. apply NoDup_cons in Hnd as [Hk Hnd].
  unfold Py.dict_update in *. simpl.
  rewrite dict_set_fresh by (apply Hfresh; left).
  rewrite IH; [by rewrite <- app_assoc|done|].
  intros k' Hk'. rewrite fmap_app, not_elem_of_app. split.
  - apply Hfresh. by right.
  - simpl. rewrite list_elem_of_singleton. intros ->. done.
Qed.

Lemma dict_update_NoDup d kvs : NoDup d.*1 → NoDup (Py.dict_update d kvs).*1.
Proof.
  revert d. induction kvs as [|[k v] kvs IH]; intros d Hd; [done|].
  unfold Py.dict_update in *. simpl. by apply IH, dict_set_NoDup.
Qed.

Lemma assoc_None k d : Py.assoc k d = None ↔ k ∉ d.*1.
Proof.
  induction d as [|[k' v'] d IH]; simpl.
  { split; [intros _; apply not_elem_of_nil|done]. }
  rewrite not_elem_of_cons. destruct (decide (k' = k)) as [->|Hne].
  - split; [done|]. by intros [? _].
  - rewrite IH. split; [by split|by intros [_ ?]].
Qed.

Lemma assoc_Some k v d :
  NoDup d.*1 → Py.assoc k d = Some v ↔ (k, v) ∈ d.
Proof.
  induction d as [|[k' v'] d IH]; simpl; intros Hnd.
  { split; [done|]. by intros ?%elem_of_nil. }
  apply NoDup_cons in Hnd as [Hk' Hnd]. rewrite elem_of_cons.
  destruct (decide (k' = k)) as [->|Hne].
  - split; [intros [= ->]; by left|]. intros [[= ->]|Hin]; [done|].
    destruct Hk'. apply list_elem_of_fmap. by exists (k, v).
  - rewrite (IH Hnd). split; [by right|]. intros [[= -> ->]|?]; done.
Qed.

End dict_facts.

(** ** Keys *)

Section key_facts.

Lemma pretty_N_char_digit x : is_digit (pretty_N_char x) = true.
Proof. unfold pretty_N_char. by repeat case_match. Qed.

Lemma pretty_N_go_digits x s :
  all_digits s = true → all_digits (pretty_N_go x s) = true.
Proof.
  revert s. induction (N.lt_wf_0 x) as [x _ IH]; intros s Hs.
  assert (x = 0 ∨ 0 < x)%N as [->|Hx] by lia.
  - by rewrite pretty_N_go_0.
  - rewrite pretty_N_go_step by done. apply IH.
    + by apply N.div_lt.
    + simpl. by rewrite pretty_N_char_digit.
Qed.

Lemma pretty_nat_digits (n : nat) : all_digits (pretty n) = true.
Proof.
  unfold pretty, pretty_nat, pretty, pretty_N.
  case_decide; [done|]. by apply pretty_N_go_digits.
Qed.

Lemma digits_app_inj s1 s2 t1 t2 :
  all_digits s1 = true → all_digits s2 = true →
  stops_digits t1 → stops_digits t2 →
  s1 +:+ t1 = s2 +:+ t2 → s1 = s2 ∧ t1 = t2.
Proof.
  revert s2. induction s1 as [|c s1 IH]; intros [|c' s2]; simpl;
    rewrite ?app_nil_l_s, ?app_cons_s.
  - done.
  - intros _ [Hc' _]%andb_prop Ht1 _ ->. unfold stops_digits in Ht1.
    simpl in Ht1. congruence.
  - intros [Hc _]%andb_prop _ _ Ht2 <-. unfold stops_digits in Ht2.
    simpl in Ht2. congruence.
  - intros [_ H1]%andb_prop [_ H2]%andb_prop Ht1 Ht2 [= -> Heq].
    destruct (IH s2 H1 H2 Ht1 Ht2 Heq) as [-> ->]. done.
Qed.

Lemma url_key_inj i j : BWItem.url_key i = BWItem.url_key j → i = j.
Proof.
  unfold BWItem.url_key. intros H%(inj (String.app _)).
  apply (inj pretty) in H. lia.
Qed.

Lemma custom_field_key_inj i j n n' :
  BWItem.custom_field_key i n = BWItem.custom_field_key j n' → i = j.
Proof.
  unfold BWItem.custom_field_key. intros H%(inj (String.app _)).
  apply digits_app_inj in H as [H _]; try apply pretty_nat_digits; try done.
  apply (inj pretty) in H. lia.
Qed.

Lemma attachment_key_inj i j w w' :
  BWItem.attachment_key i w = BWItem.attachment_key j w' → i = j ∧ w = w'.
Proof.
  unfold BWItem.attachment_key. intros H%(inj (String.app _)).
  apply digits_app_inj in H as [H1 H2]; try apply pretty_nat_digits; try done.
  apply (inj pretty) in H1. by apply (inj (String.app _)) in H2.
Qed.

Lemma url_key_head i : PyStr.startswith (BWItem.url_key i) "URL " = true.
Proof. reflexivity. Qed.

Lemma custom_field_key_head i n :
  head_char (BWItem.custom_field_key i n) = Some "["%char.
Proof. reflexivity. Qed.

Lemma attachment_key_head i w :
  head_char (BWItem.attachment_key i w) = Some "A"%char.
Proof. reflexivity. Qed.

End key_facts.

(** ** The error monad *)

Lemma bind_Ok {A B : Type} (a : A) (f : A → result B) : (Ok a ≫= f) = f a.
Proof. reflexivity. Qed.

Lemma bind_Raise {A B : Type} (e : exn) (f : A → result B) :
  (Raise e ≫= f) = Raise e.
Proof. reflexivity. Qed.

Lemma bind_Ok_inv {A B : Type} (m : result A) (f : A → result B) (b : B) :
  (m ≫= f) = Ok b → ∃ a, m = Ok a ∧ f a = Ok b.
Proof. destruct m as [a|e]; [by exists a|done]. Qed.

(** ** Loops that fill a dict *)

Section entries_facts.

Lemma for_enumerate_collect body f :
  (∀ index x d, body index x d = (kvs ← f index x; Ok (Py.dict_update d kvs))) →
  ∀ l index d,
    Py.for_enumerate body index l d
    = (kvs ← Entries.collect f index l; Ok (Py.dict_update d kvs)).
Proof.
  intros Hbody. induction l as [|x l IH]; intros index d; [done|].
  cbn [Py.for_enumerate Entries.collect]. rewrite Hbody.
  destruct (f index x) as [kvs|e]; [|done]. rewrite !bind_Ok, IH.
  destruct (Entries.collect f (S index) l) as [rest|e]; [|done].
  by rewrite !bind_Ok, dict_update_app.
Qed.

Lemma collect_keys f (R : nat → string → Prop) :
  (∀ i x kvs, f i x = Ok kvs → NoDup kvs.*1 ∧ Forall (R i) kvs.*1) →
  (∀ i j k, R i k → R j k → i = j) →
  ∀ l i kvs, Entries.collect f i l = Ok kvs →
    NoDup kvs.*1 ∧ Forall (λ k, ∃ j, (i ≤ j)%nat ∧ R j k) kvs.*1.
Proof.
  intros Hf HR. induction l as [|x l IH]; intros i kvs.
  { intros [= <-]. split; [apply NoDup_nil_2|apply Forall_nil_2]. }
  cbn [Entries.collect].
  intros (kvs1 & H1 & (rest & H2 & [= <-])%bind_Ok_inv)%bind_Ok_inv.
  destruct (Hf _ _ _ H1) as [Hnd1 HR1]. destruct (IH _ _ H2) as [Hnd2 HR2].
  rewrite fmap_app. split.
  - apply NoDup_app. split_and!; [done| |done].
    intros k Hk1 Hk2. rewrite Forall_forall in HR1, HR2.
    destruct (HR2 _ Hk2) as (j & Hj & HRj).
    specialize (HR _ _ _ (HR1 _ Hk1) HRj). lia.
  - apply Forall_app. split.
    + eapply Forall_impl; [exact HR1|]. intros k Hk. exists i. by split.
    + eapply Forall_impl; [exact HR2|]. intros k (j & Hj & Hk).
      exists j. split; [lia|done].
Qed.

End entries_facts.

(** ** [format_login] writes no key twice *)

Section login_facts.

Lemma of_uri_keys :
  ∀ i x kvs, Entries.of_uri i x = Ok kvs →
    NoDup kvs.*1 ∧ Forall (λ k, k = BWItem.url_key i) kvs.*1.
Proof.
  intros i x kvs. unfold Entries.of_uri.
  intros (v & _ & [= <-])%bind_Ok_inv. split.
  - apply NoDup_singleton.
  - by apply Forall_singleton.
Qed.

Lemma collect_of_uri_keys us i kvs :
  Entries.collect Entries.of_uri i us = Ok kvs →
  NoDup kvs.*1 ∧ Forall (λ k, PyStr.startswith k "URL " = true) kvs.*1.
Proof.
  intros H.
  destruct (collect_keys Entries.of_uri (λ i k, k = BWItem.url_key i)
              of_uri_keys) with (l := us) (i := i) (kvs := kvs) as [Hnd HR];
    [|done|].
  { intros a b k -> Heq. by apply url_key_inj. }
  split; [done|]. eapply Forall_impl; [exact HR|].
  intros k (j & _ & ->). apply url_key_head.
Qed.

Lemma format_login_entries login :
  BWItem.format_login login = Entries.of_login login.
Proof.
  unfold BWItem.format_login, Entries.of_login, Entries.of_uris, BWItem.copy_key.
  rewrite bind_Ok.
  destruct (login.["username"]) as [u|e]; [|done].
  destruct (login.["password"]) as [p|e]; [|done].
  destruct (login.["totp"]) as [t|e]; [|done].
  rewrite !bind_Ok.
  destruct (Py.get login "uris" (JList [])) as [uris|e]; [|done].
  rewrite !bind_Ok.
  destruct (Py.len uris) as [n|e]; [|done].
  rewrite !bind_Ok. destruct (n =? 1)%nat.
  - destruct (Py.getitem0 uris) as [x|e]; [|done]. rewrite !bind_Ok.
    destruct (x.["uri"]) as [v|e]; [|done]. done.
  - destruct (Py.iter uris) as [us|e]; [|done]. rewrite !bind_Ok.
    rewrite (for_enumerate_collect _ Entries.of_uri).
    2:{ intros index x d. unfold Entries.of_uri. by destruct (x.["uri"]). }
    destruct (Entries.collect Entries.of_uri 0 us) as [kvs|e] eqn:Hc; [|done].
    rewrite !bind_Ok. apply collect_of_uri_keys in Hc as [Hnd Hk].
    rewrite dict_update_fresh; [done..|].
    intros k Hin. rewrite Forall_forall in Hk. specialize (Hk _ Hin).
    intros Hbase. csimpl in Hbase.
    repeat (apply elem_of_cons in Hbase as [->|Hbase]; [done|]).
    by apply elem_of_nil in Hbase.
Qed.

End login_facts.

(** ** The type specific fields write no key twice *)

Section typed_facts.

Lemma startswith_URL_typed k : PyStr.startswith k "URL" = true → typed_key k = true.
Proof.
  destruct k as [|c k]; [done|]. cbn [PyStr.startswith].
  intros [Hc _]%andb_prop. by apply Ascii.eqb_eq in Hc as <-.
Qed.

Lemma startswith_weaken k : 
  PyStr.startswith k "URL " = true → PyStr.startswith k "URL" = true.
Proof.
  destruct k as [|c1 [|c2 [|c3 k]]]; cbn [PyStr.startswith];
    rewrite ?andb_false_r; try done.
  intros H. repeat (apply andb_prop in H as [-> H]). done.
Qed.

Lemma of_uris_keys login urls :
  Entries.of_uris login = Ok urls →
  NoDup urls.*1 ∧ Forall (λ k, PyStr.startswith k "URL" = true) urls.*1.
Proof.
  unfold Entries.of_uris.
  intros (uris & _ & (n & _ & H)%bind_Ok_inv)%bind_Ok_inv.
  destruct (n =? 1)%nat.
  - apply bind_Ok_inv in H as (u & _ & (v & _ & [= <-])%bind_Ok_inv).
    split; [apply NoDup_singleton|by apply Forall_singleton].
  - apply bind_Ok_inv in H as (us & _ & [Hnd Hk]%collect_of_uri_keys).
    split; [done|]. eapply Forall_impl; [exact Hk|]. apply startswith_weaken.
Qed.

Lemma of_login_keys login typed :
  Entries.of_login login = Ok typed →
  NoDup typed.*1 ∧ Forall (λ k, typed_key k = true) typed.*1.
Proof.
  unfold Entries.of_login.
  intros (u & _ & (p & _ & (t & _ & (urls & Hu & [= <-])%bind_Ok_inv)
    %bind_Ok_inv)%bind_Ok_inv)%bind_Ok_inv.
  apply of_uris_keys in Hu as [Hnd Hk].
  change (?a :: ?b :: ?c :: urls) with ([a; b; c] ++ urls).
  rewrite fmap_app. split.
  - apply NoDup_app. split_and!; [by apply (bool_decide_unpack _)| |done].
    intros k Hbase Hin. rewrite Forall_forall in Hk. specialize (Hk _ Hin).
    csimpl in Hbase.
    repeat (apply elem_of_cons in Hbase as [->|Hbase]; [done|]).
    by apply elem_of_nil in Hbase.
  - apply Forall_app. split; [by repeat constructor|].
    eapply Forall_impl; [exact Hk|]. apply startswith_URL_typed.
Qed.

Ltac read_key :=
  match goal with
  | |- context [Py.getitem ?src ?key] =>
      destruct (Py.getitem src key); [rewrite ?bind_Ok|done]
  end.

Lemma format_card_keys card d :
  BWItem.format_card card = Ok d → d.*1 = card_keys.
Proof.
  unfold BWItem.format_card, BWItem.copy_key. rewrite bind_Ok.
  repeat read_key. by intros [= <-].
Qed.

Lemma format_identity_keys identity d :
  BWItem.format_identity identity = Ok d → d.*1 = identity_keys.
Proof.
  unfold BWItem.format_identity, BWItem.copy_key. rewrite bind_Ok.
  repeat read_key. by intros [= <-].
Qed.

Lemma of_type_keys item ty typed :
  Entries.of_type item ty = Ok typed →
  NoDup typed.*1 ∧ Forall (λ k, typed_key k = true) typed.*1.
Proof.
  unfold Entries.of_type. repeat case_decide.
  - intros (login & _ & Hl)%bind_Ok_inv. by apply of_login_keys in Hl.
  - intros [= <-]. split; constructor.
  - intros (card & _ & ->%format_card_keys)%bind_Ok_inv.
    split; by apply (bool_decide_unpack _).
  - intros (identity & _ & ->%format_identity_keys)%bind_Ok_inv.
    split; by apply (bool_decide_unpack _).
  - intros [= <-]. split; constructor.
Qed.

Lemma type_specific_entries item ty name :
  BWItem.type_specific item ty [("Name", name)]
  = (typed ← Entries.of_type item ty; Ok ([("Name", name)] ++ typed)).
Proof.
  assert (∀ typed, Entries.of_type item ty = Ok typed →
    Py.dict_update [("Name", name)] typed = [("Name", name)] ++ typed) as Hupd.
  { intros typed [Hnd Hk]%of_type_keys. apply dict_update_fresh; [done|].
    intros k Hin Hname%list_elem_of_singleton. rewrite Forall_forall in Hk.
    specialize (Hk _ Hin). by subst. }
  revert Hupd. unfold BWItem.type_specific, Entries.of_type.
  repeat case_decide; try done.
  - destruct (item.["login"]) as [login|e]; [|done]. rewrite !bind_Ok.
    rewrite format_login_entries.
    destruct (Entries.of_login login) as [typed|e]; [|done].
    intros Hupd. by rewrite !bind_Ok, Hupd.
  - destruct (item.["card"]) as [card|e]; [|done]. rewrite !bind_Ok.
    destruct (BWItem.format_card card) as [typed|e]; [|done].
    intros Hupd. by rewrite !bind_Ok, Hupd.
  - destruct (item.["identity"]) as [identity|e]; [|done]. rewrite !bind_Ok.
    destruct (BWItem.format_identity identity) as [typed|e]; [|done].
    intros Hupd. by rewrite !bind_Ok, Hupd.
Qed.

End typed_facts.

(** ** [BWItem.format] writes no key twice *)

Section format_facts.

Lemma of_field_keys :
  ∀ i x kvs, Entries.of_field i x = Ok kvs →
    NoDup kvs.*1
    ∧ Forall (λ k, ∃ name, k = BWItem.custom_field_key i name) kvs.*1.
Proof.
  intros i x kvs. unfold Entries.of_field.
  intros (name & _ & (v & _ & [= <-])%bind_Ok_inv)%bind_Ok_inv. split.
  - apply NoDup_singleton.
  - apply Forall_singleton. by exists name.
Qed.

Lemma collect_of_field_keys fields i kvs :
  Entries.collect Entries.of_field i fields = Ok kvs →
  NoDup kvs.*1 ∧ Forall (λ k, head_char k = Some "["%char) kvs.*1.
Proof.
  intros H.
  destruct (collect_keys Entries.of_field
              (λ i k, ∃ name, k = BWItem.custom_field_key i name)
              of_field_keys) with (l := fields) (i := i) (kvs := kvs)
    as [Hnd HR]; [|done|].
  { intros a b k [n ->] [n' Heq]. by apply custom_field_key_inj in Heq. }
  split; [done|]. eapply Forall_impl; [exact HR|].
  intros k (j & _ & n & ->). apply custom_field_key_head.
Qed.

Lemma of_attachment_keys :
  ∀ i x kvs, Entries.of_attachment i x = Ok kvs →
    NoDup kvs.*1 ∧ Forall (λ k, ∃ w, k = BWItem.attachment_key i w) kvs.*1.
Proof.
  intros i x kvs. unfold Entries.of_attachment.
  intros (a & _ & (b & _ & (c & _ & [= <-])%bind_Ok_inv)%bind_Ok_inv)%bind_Ok_inv.
  split.
  - csimpl. repeat (apply NoDup_cons; split); [| |apply not_elem_of_nil|apply NoDup_nil_2].
    + intros [Heq|[Heq|Hnil]%elem_of_cons]%elem_of_cons;
        [by apply attachment_key_inj in Heq as [_ ?]
        |by apply attachment_key_inj in Heq as [_ ?]
        |by apply elem_of_nil in Hnil].
    + intros [Heq|Hnil]%elem_of_cons;
        [by apply attachment_key_inj in Heq as [_ ?]
        |by apply elem_of_nil in Hnil].
  - repeat (apply Forall_cons; split); [by eexists..|apply Forall_nil_2].
Qed.

Lemma collect_of_attachment_keys attachments i kvs :
  Entries.collect Entries.of_attachment i attachments = Ok kvs →
  NoDup kvs.*1 ∧ Forall (λ k, head_char k = Some "A"%char) kvs.*1.
Proof.
  intros H.
  destruct (collect_keys Entries.of_attachment
              (λ i k, ∃ w, k = BWItem.attachment_key i w)
              of_attachment_keys) with (l := attachments) (i := i) (kvs := kvs)
    as [Hnd HR]; [|done|].
  { intros a b k [w ->] [w' Heq]. by apply attachment_key_inj in Heq as [? _]. }
  split; [done|]. eapply Forall_impl; [exact HR|].
  intros k (j & _ & w & ->). apply attachment_key_head.
Qed.

Lemma typed_key_head k :
  typed_key k = true →
  head_char k ≠ Some "["%char ∧ head_char k ≠ Some "A"%char ∧ k ≠ "Notes".
Proof.
  unfold typed_key. destruct k as [|c k]; [done|]. simpl.
  intros Hc%bool_decide_eq_true.
  repeat (apply elem_of_cons in Hc as [->|Hc]; [done|]).
  by apply elem_of_nil in Hc.
Qed.

(** The dict that [BWItem.format] fills holds the bindings of
    [Entries.of_item], in that order; the two raise the same exceptions. *)
Theorem format_dict_entries item :
  BWItem.format_dict item = Entries.of_item item.
Proof.
  unfold BWItem.format_dict, Entries.of_item, BWItem.copy_key.
  rewrite !bind_Ok.
  destruct (BWItem.item_type item) as [ty|e]; [|done]. rewrite !bind_Ok.
  destruct (item.["name"]) as [name|e]; [|done]. rewrite !bind_Ok.
  change (Py.dict_set "Name" name []) with [("Name", name)].
  rewrite type_specific_entries.
  destruct (Entries.of_type item ty) as [typed|e] eqn:Htyped; [|done].
  rewrite !bind_Ok. apply of_type_keys in Htyped as [_ Htyped].
  rewrite Forall_forall in Htyped.
  assert (∀ k, k ∈ ([("Name", name)] ++ typed).*1 →
    head_char k ≠ Some "["%char ∧ head_char k ≠ Some "A"%char ∧ k ≠ "Notes")
    as Hold.
  { intros k [->|Hk]%elem_of_cons; [done|]. by apply typed_key_head, Htyped. }
  clear Htyped. unfold Entries.of_fields, Entries.of_attachments.
  destruct (Py.get item "fields" (JList [])) as [x|e]; [|done].
  rewrite !bind_Ok. destruct (Py.iter x) as [fields|e]; [|done].
  rewrite !bind_Ok. clear x.
  rewrite (for_enumerate_collect _ Entries.of_field).
  2:{ intros index f d. unfold Entries.of_field.
      destruct (f.["name"]) as [n|e]; [|done]. rewrite !bind_Ok.
      by destruct (f.["value"]). }
  destruct (Entries.collect Entries.of_field 0 fields) as [custom|e] eqn:Hcustom;
    [|done].
  rewrite !bind_Ok. apply collect_of_field_keys in Hcustom as [Hnd1 Hc].
  rewrite Forall_forall in Hc.
  rewrite dict_update_fresh; [|done|].
  2:{ intros k Hk Hin. apply Hold in Hin as [Hin _]. by apply Hc in Hk. }
  destruct (Py.get item "attachments" (JList [])) as [x|e]; [|done].
  rewrite !bind_Ok. destruct (Py.iter x) as [attachments|e]; [|done].
  rewrite !bind_Ok. clear x.
  rewrite (for_enumerate_collect _ Entries.of_attachment).
  2:{ intros index a d. unfold Entries.of_attachment, BWItem.copy_key.
      destruct (a.["fileName"]) as [n|e]; [|done]. rewrite !bind_Ok.
      destruct (a.["sizeName"]) as [n'|e]; [|done]. rewrite !bind_Ok.
      by destruct (a.["url"]). }
  destruct (Entries.collect Entries.of_attachment 0 attachments)
    as [attached|e] eqn:Hatt; [|done].
  rewrite !bind_Ok. apply collect_of_attachment_keys in Hatt as [Hnd2 Ha].
  rewrite Forall_forall in Ha.
  rewrite dict_update_fresh; [|done|].
  2:{ intros k Hk. rewrite fmap_app, not_elem_of_app. split.
      - intros Hin. apply Hold in Hin as (_ & Hin & _). by apply Ha in Hk.
      - intros Hin. apply Hc in Hin. apply Ha in Hk. congruence. }
  destruct (item.["notes"]) as [notes|e]; [|done]. rewrite !bind_Ok.
  rewrite dict_set_fresh; [by rewrite <- !app_assoc|].
  rewrite 2!fmap_app, 2!not_elem_of_app. split_and!.
  - intros Hin. by apply Hold in Hin as (_ & _ & Hin).
  - intros Hin. by apply Hc in Hin.
  - intros Hin. by apply Ha in Hin.
Qed.

End format_facts.

(** ** The filled dict has one binding per key *)

Section nodup_facts.

Lemma copy_key_NoDup src key k d d' :
  BWItem.copy_key src key k d = Ok d' → NoDup d.*1 → NoDup d'.*1.
Proof.
  unfold BWItem.copy_key. intros (v & _ & [= <-])%bind_Ok_inv.
  apply dict_set_NoDup.
Qed.

Lemma for_enumerate_invariant {D : Type} (P : D → Prop) body :
  (∀ index x d d', body index x d = Ok d' → P d → P d') →
  ∀ l index (d d' : D), Py.for_enumerate body index l d = Ok d' → P d → P d'.
Proof.
  intros Hbody. induction l as [|x l IH]; intros index d d'.
  { by intros [= <-]. }
  cbn [Py.for_enumerate]. intros (d1 & H1 & H2)%bind_Ok_inv Hd.
  eapply IH; [exact H2|]. by eapply Hbody.
Qed.

Lemma type_specific_NoDup item ty d d' :
  BWItem.type_specific item ty d = Ok d' → NoDup d.*1 → NoDup d'.*1.
Proof.
  unfold BWItem.type_specific. repeat case_decide.
  - intros (? & _ & (? & _ & [= <-])%bind_Ok_inv)%bind_Ok_inv.
    apply dict_update_NoDup.
  - by intros [= <-].
  - intros (? & _ & (? & _ & [= <-])%bind_Ok_inv)%bind_Ok_inv.
    apply dict_update_NoDup.
  - intros (? & _ & (? & _ & [= <-])%bind_Ok_inv)%bind_Ok_inv.
    apply dict_update_NoDup.
  - by intros [= <-].
Qed.

Lemma format_dict_NoDup item d :
  BWItem.format_dict item = Ok d → NoDup d.*1.
Proof.
  unfold BWItem.format_dict. rewrite !bind_Ok.
  intros (ty & _ & (d1 & H1 & (d2 & H2 & (fields & _ & (d3 & H3 &
    (attachments & _ & (d4 & H4 & H5)%bind_Ok_inv)%bind_Ok_inv)%bind_Ok_inv)
    %bind_Ok_inv)%bind_Ok_inv)%bind_Ok_inv)%bind_Ok_inv.
  apply copy_key_NoDup in H5; [done|].
  eapply (for_enumerate_invariant (λ d, NoDup d.*1)) in H4; [done| |].
  { intros index a d0 d0' (d5 & Ha & (d6 & Hb & Hc)%bind_Ok_inv)%bind_Ok_inv Hd0.
    eauto using copy_key_NoDup. }
  eapply (for_enumerate_invariant (λ d, NoDup d.*1)) in H3; [done| |].
  { intros index a d0 d0' (n & _ & Ha)%bind_Ok_inv Hd0. rewrite bind_Ok in Ha.
    eauto using copy_key_NoDup. }
  apply type_specific_NoDup in H2; [done|].
  apply copy_key_NoDup in H1; [done|]. apply NoDup_nil_2.
Qed.

End nodup_facts.

(** ** The text of the body *)

Section render_facts.

Lemma emitted_app d1 d2 :
  BWItem.emitted (d1 ++ d2) = BWItem.emitted d1 ++ BWItem.emitted d2.
Proof. apply filter_app. Qed.

Lemma elem_of_emitted k v d :
  (k, v) ∈ BWItem.emitted d ↔ (k, v) ∈ d ∧ v ≠ JNull.
Proof.
  unfold BWItem.emitted. rewrite list_elem_of_filter. simpl.
  split; intros [H1 H2]; split; try done; by destruct v.
Qed.

Lemma emitted_all d :
  Forall (λ kv, kv.2 ≠ JNull) d → BWItem.emitted d = d.
Proof.
  induction 1 as [|[k v] d Hv _ IH]; [done|].
  unfold BWItem.emitted in *. rewrite filter_cons, IH. simpl in *.
  by destruct v.
Qed.

End render_facts.

(** C3.  Let [d] be the record [BWItem.format] builds for an item.  The body
    is the lines of the bindings [BWItem.emitted d], joined by newlines, with
    a newline at the end; and a field [k] that is null in [d], or absent
    from [d], has no binding among them: no line is written for it. *)
Theorem format_omits_null_fields (item : json) (d : pydict) :
  BWItem.format_dict item = Ok d →
  BWItem.format item
  = Ok (PyStr.join PyStr.nl (map BWItem.line (BWItem.emitted d)) +:+ PyStr.nl)
  ∧ ∀ k : string,
      Py.assoc k d = Some JNull ∨ Py.assoc k d = None →
      ∀ kv, kv ∈ BWItem.emitted d → kv.1 ≠ k.
Proof.
  intros Hd. split.
  { unfold BWItem.format. by rewrite Hd. }
  intros k Hk [k' v] [Hin Hv]%elem_of_emitted <-. simpl in *.
  destruct Hk as [Hk|Hk].
  - apply assoc_Some in Hk; [|by eapply format_dict_NoDup].
    apply format_dict_NoDup in Hd.
    assert (v = JNull); [|done].
    apply (assoc_Some k' _ _ Hd) in Hin. apply (assoc_Some k' _ _ Hd) in Hk.
    congruence.
  - apply assoc_None in Hk. destruct Hk.
    apply list_elem_of_fmap. by exists (k', v).
Qed.

(** The month and the year of a card are put into one text before the
    filter looks at the record, so a card without them still has the line. *)
Example format_card_without_expiry :
  BWItem.format Sample.card
  = Ok (PyStr.join PyStr.nl
          ["Name: Visa";
           "Card Holder Name: Alice A";
           "Card Brand: Visa";
           "Card Number: 4111111111111111";
           "Card Expire MM/YYYY: None/None"]
        +:+ PyStr.nl).
Proof. reflexivity. Qed.

Lemma format_omits_null_fields_witness :
  ∃ d, BWItem.format_dict Sample.bank = Ok d
       ∧ Py.assoc "Password" d = Some JNull
       ∧ Forall (λ kv, kv.1 ≠ "Password") (BWItem.emitted d).
Proof.
  eexists. split; [reflexivity|]. split; [reflexivity|].
  apply Forall_forall. intros kv Hkv.
  eapply (proj2 (format_omits_null_fields Sample.bank _ eq_refl));
    [left; reflexivity|exact Hkv].
Defined.

(** ** Type dispatch *)

(** C4.  An item whose type code is an integer other than 1, 2, 3, 4 is not
    formatted: [BWItem.format] raises the exception [Unknown item type: t]
    and gives no body.  The codes 1, 2, 3, 4 are the types login, note, card
    and identity, and the type specific fields of each come from its own
    formatter; a note has none. *)
Theorem format_dispatch (item : json) (t : Z) :
  item.["type"] = Ok (JInt t) →
  (¬ (1 ≤ t ≤ 4) →
     BWItem.format item = Raise (Exception ("Unknown item type: " +:+ pretty t))
     ∧ ∀ body, BWItem.format item ≠ Ok body)
  ∧ (t = 1 → BWItem.item_type item = Ok "login")
  ∧ (t = 2 → BWItem.item_type item = Ok "note")
  ∧ (t = 3 → BWItem.item_type item = Ok "card")
  ∧ (t = 4 → BWItem.item_type item = Ok "identity")
  ∧ (∀ d, BWItem.type_specific item "login" d
          = (login ← item.["login"];
             other ← BWItem.format_login login;
             Ok (Py.dict_update d other)))
  ∧ (∀ d, BWItem.type_specific item "note" d = Ok d)
  ∧ (∀ d, BWItem.type_specific item "card" d
          = (card ← item.["card"];
             other ← BWItem.format_card card;
             Ok (Py.dict_update d other)))
  ∧ (∀ d, BWItem.type_specific item "identity" d
          = (identity ← item.["identity"];
             other ← BWItem.format_identity identity;
             Ok (Py.dict_update d other))).
Proof.
  intros Hty. split_and!; try (intros ->; by apply (item_type_code item _ Hty));
    try done.
  intros Hr.
  assert (BWItem.format item
          = Raise (Exception ("Unknown item type: " +:+ pretty t))) as Hf.
  { unfold BWItem.format, BWItem.format_dict, BWItem.item_type.
    rewrite !bind_Ok, Hty, bind_Ok. unfold Py.eq_int.
    destruct (Z.eqb_spec t 1); [lia|]. destruct (Z.eqb_spec t 2); [lia|].
    destruct (Z.eqb_spec t 3); [lia|]. destruct (Z.eqb_spec t 4); [lia|].
    done. }
  split; [done|]. intros body. by rewrite Hf.
Qed.

Lemma format_dispatch_witness :
  BWItem.format Sample.odd = Raise (Exception "Unknown item type: 5").
Proof.
  refine (proj1 (proj1 (format_dispatch Sample.odd 5 _) _));
    [reflexivity|lia].
Defined.

(** ** Reading the record back *)

Section record_facts.

Lemma of_item_inv item d :
  Entries.of_item item = Ok d →
  ∃ ty name typed custom attached notes,
    BWItem.item_type item = Ok ty
    ∧ item.["name"] = Ok name
    ∧ Entries.of_type item ty = Ok typed
    ∧ Entries.of_fields item = Ok custom
    ∧ Entries.of_attachments item = Ok attached
    ∧ item.["notes"] = Ok notes
    ∧ d = [("Name", name)] ++ typed ++ custom ++ attached ++ [("Notes", notes)].
Proof.
  unfold Entries.of_item.
  intros (ty & ? & (name & ? & (typed & ? & (custom & ? & (attached & ? &
    (notes & ? & [= <-])%bind_Ok_inv)%bind_Ok_inv)%bind_Ok_inv)%bind_Ok_inv)
    %bind_Ok_inv)%bind_Ok_inv.
  by exists ty, name, typed, custom, attached, notes.
Qed.

Lemma written_as_intro d label v :
  NoDup d.*1 → (label, v) ∈ d → written_as d label v.
Proof.
  intros Hnd Hin. split_and!; [done| |].
  - intros -> ([k v'] & -> & [Hk Hv]%elem_of_emitted)%list_elem_of_fmap.
    simpl in *. apply (assoc_Some _ _ _ Hnd) in Hin, Hk. congruence.
  - intros Hv. by apply elem_of_emitted.
Qed.

Lemma collect_of_field_lookup fields :
  ∀ i0 custom i field,
    Entries.collect Entries.of_field i0 fields = Ok custom →
    fields !! i = Some field →
    ∃ name v, field.["name"] = Ok name ∧ field.["value"] = Ok v
      ∧ (BWItem.custom_field_key (i0 + i) name, v) ∈ custom.
Proof.
  induction fields as [|f fields IH]; intros i0 custom i field; [done|].
  cbn [Entries.collect].
  intros (kvs & Hf & (rest & Hrest & [= <-])%bind_Ok_inv)%bind_Ok_inv.
  destruct i as [|i]; simpl.
  - intros [= ->]. unfold Entries.of_field in Hf.
    apply bind_Ok_inv in Hf as (name & Hn & (v & Hv & [= <-])%bind_Ok_inv).
    exists name, v. rewrite Nat.add_0_r. split_and!; [done..|]. by left.
  - intros Hi. destruct (IH _ _ _ _ Hrest Hi) as (name & v & Hn & Hv & Hin).
    exists name, v. split_and!; [done..|].
    apply elem_of_app. right. by replace (i0 + S i)%nat with (S i0 + i)%nat by lia.
Qed.

Lemma collect_of_attachment_lookup attachments :
  ∀ i0 attached i attachment,
    Entries.collect Entries.of_attachment i0 attachments = Ok attached →
    attachments !! i = Some attachment →
    ∃ a b c,
      attachment.["fileName"] = Ok a ∧ attachment.["sizeName"] = Ok b
      ∧ attachment.["url"] = Ok c
      ∧ (BWItem.attachment_key (i0 + i) "File Name", a) ∈ attached
      ∧ (BWItem.attachment_key (i0 + i) "File Size", b) ∈ attached
      ∧ (BWItem.attachment_key (i0 + i) "URL", c) ∈ attached.
Proof.
  induction attachments as [|x attachments IH];
    intros i0 attached i attachment; [done|].
  cbn [Entries.collect].
  intros (kvs & Hx & (rest & Hrest & [= <-])%bind_Ok_inv)%bind_Ok_inv.
  destruct i as [|i]; simpl.
  - intros [= ->]. unfold Entries.of_attachment in Hx.
    apply bind_Ok_inv in Hx as (a & Ha & (b & Hb & (c & Hc & [= <-])%bind_Ok_inv)
      %bind_Ok_inv).
    exists a, b, c. rewrite Nat.add_0_r.
    split_and!; [done..| | |]; apply elem_of_app; left; set_solver.
  - intros Hi.
    destruct (IH _ _ _ _ Hrest Hi) as (a & b & c & Ha & Hb & Hc & H1 & H2 & H3).
    exists a, b, c. replace (i0 + S i)%nat with (S i0 + i)%nat by lia.
    split_and!; [done..| | |]; apply elem_of_app; by right.
Qed.

End record_facts.

(** ** Numbering *)

(** C10.  The number in a label is a matter of the place of the element in
    the list of the item, whatever lines are written: the custom field at
    index [i] (the [i+1]-th of the list) stands in the record under
    [[Custom Field i+1] <name>], and the three values of the attachment at
    index [i] under [Attachment i File Name], [Attachment i File Size] and
    [Attachment i URL] (the script counts attachments from 0).  A null value
    gets no line and no other element moves up to its number. *)
Theorem labels_number_by_position
    (item : json) (fields attachments : list json) (d : pydict) :
  Py.get item "fields" (JList []) = Ok (JList fields) →
  Py.get item "attachments" (JList []) = Ok (JList attachments) →
  BWItem.format_dict item = Ok d →
  BWItem.format item = Ok (BWItem.render d)
  ∧ (∀ (i : nat) (field : json),
       fields !! i = Some field →
       ∃ name v,
         field.["name"] = Ok name ∧ field.["value"] = Ok v
         ∧ written_as d
             ("[Custom Field " +:+ pretty (i + 1)%nat +:+ "] " +:+ Py.str name) v)
  ∧ (∀ (i : nat) (attachment : json),
       attachments !! i = Some attachment →
       ∃ a b c,
         attachment.["fileName"] = Ok a ∧ attachment.["sizeName"] = Ok b
         ∧ attachment.["url"] = Ok c
         ∧ written_as d ("Attachment " +:+ pretty i +:+ " File Name") a
         ∧ written_as d ("Attachment " +:+ pretty i +:+ " File Size") b
         ∧ written_as d ("Attachment " +:+ pretty i +:+ " URL") c).
Proof.
  intros Hfields Hatts Hd. split; [unfold BWItem.format; by rewrite Hd|].
  pose proof (format_dict_NoDup _ _ Hd) as Hnd.
  rewrite format_dict_entries in Hd.
  apply of_item_inv in Hd
    as (ty & name & typed & custom & attached & notes & _ & _ & _ & Hc & Ha & _ & ->).
  unfold Entries.of_fields in Hc. unfold Entries.of_attachments in Ha.
  rewrite Hfields in Hc. rewrite Hatts in Ha. rewrite !bind_Ok in Hc, Ha.
  simpl in Hc, Ha. split.
  - intros i field Hi.
    destruct (collect_of_field_lookup _ _ _ _ _ Hc Hi) as (n & v & Hn & Hv & Hin).
    exists n, v. split_and!; [done..|]. apply written_as_intro; [done|].
    rewrite !elem_of_app. auto.
  - intros i attachment Hi.
    destruct (collect_of_attachment_lookup _ _ _ _ _ Ha Hi)
      as (a & b & c & Ha' & Hb' & Hc' & H1 & H2 & H3).
    exists a, b, c.
    split_and!; [done..| | |]; (apply written_as_intro; [done|]);
      rewrite !elem_of_app; auto.
Qed.

(** ** The URL lines of a login *)

Section url_facts.

Lemma head_not_URL k c :
  head_char k = Some c → c ≠ "U"%char → PyStr.startswith k "URL" = false.
Proof.
  destruct k as [|c' k]; [done|]. intros [= ->] Hc. cbn [PyStr.startswith].
  by destruct (Ascii.eqb_spec "U" c).
Qed.

Lemma of_fields_keys item custom :
  Entries.of_fields item = Ok custom →
  Forall (λ k, head_char k = Some "["%char) custom.*1.
Proof.
  unfold Entries.of_fields.
  by intros (fields & _ & [_ H]%collect_of_field_keys)%bind_Ok_inv.
Qed.

Lemma of_attachments_keys item attached :
  Entries.of_attachments item = Ok attached →
  Forall (λ k, head_char k = Some "A"%char) attached.*1.
Proof.
  unfold Entries.of_attachments.
  by intros (atts & _ & [_ H]%collect_of_attachment_keys)%bind_Ok_inv.
Qed.

(** The record of a login item: the name, the three login fields, the
    bindings of the URIs, and the rest. *)
Lemma login_record item login d :
  item.["type"] = Ok (JInt 1) →
  item.["login"] = Ok login →
  BWItem.format_dict item = Ok d →
  ∃ name u p t urls custom attached notes,
    Entries.of_uris login = Ok urls
    ∧ Forall (λ k, head_char k = Some "["%char) custom.*1
    ∧ Forall (λ k, head_char k = Some "A"%char) attached.*1
    ∧ d = [("Name", name); ("Username", u); ("Password", p); ("TOTP", t)]
          ++ urls ++ (custom ++ attached ++ [("Notes", notes)]).
Proof.
  intros Hty Hlogin. rewrite format_dict_entries.
  intros (ty & name & typed & custom & attached & notes
          & Hit & _ & Htyped & Hc & Ha & _ & ->)%of_item_inv.
  rewrite (item_type_code item 1 Hty) in Hit by lia. injection Hit as <-.
  unfold Entries.of_type in Htyped. simpl in Htyped.
  rewrite Hlogin, bind_Ok in Htyped. unfold Entries.of_login in Htyped.
  apply bind_Ok_inv in Htyped as (u & _ & (p & _ & (t & _ & (urls & Hu & [= <-])
    %bind_Ok_inv)%bind_Ok_inv)%bind_Ok_inv).
  exists name, u, p, t, urls, custom, attached, notes.
  split_and!; [done|by eapply of_fields_keys|by eapply of_attachments_keys|].
  reflexivity.
Qed.

End url_facts.

(** C9.  A login whose list of URIs is empty, or whose payload has no key
    [uris], gets no URL binding: no key of the record that
    [BWItem.format] builds, hence no label of a line of the body, starts
    with [URL]. *)
Theorem format_login_without_uris (item login : json) (d : pydict) :
  item.["type"] = Ok (JInt 1) →
  item.["login"] = Ok login →
  login.["uris"] = Ok (JList [])
    ∨ (∃ o, login = JDict o ∧ Py.assoc "uris" o = None) →
  BWItem.format_dict item = Ok d →
  BWItem.format item = Ok (BWItem.render d)
  ∧ ∀ kv, kv ∈ d → PyStr.startswith kv.1 "URL" = false.
Proof.
  intros Hty Hlogin Huris Hd. split; [unfold BWItem.format; by rewrite Hd|].
  destruct (login_record _ _ _ Hty Hlogin Hd)
    as (name & u & p & t & urls & custom & attached & notes & Hu & Hc & Ha & ->).
  assert (urls = []) as ->.
  { unfold Entries.of_uris in Hu.
    assert (Py.get login "uris" (JList []) = Ok (JList [])) as Hget.
    { destruct Huris as [Hget|(o & -> & Hget)].
      - destruct login as [| | | | |o]; try done. simpl in *.
        by destruct (Py.assoc "uris" o) as [x|]; simplify_eq.
      - simpl. by rewrite Hget. }
    rewrite Hget in Hu. by injection Hu. }
  rewrite Forall_forall in Hc, Ha.
  intros [k v]. rewrite app_nil_l, !elem_of_app. cbn [fst].
  intros [Hin|[Hin|[Hin|Hin]]].
  - repeat (apply elem_of_cons in Hin as [[= -> _]|Hin]; [done|]).
    by apply elem_of_nil in Hin.
  - eapply head_not_URL; [apply Hc, list_elem_of_fmap; by exists (k, v)|done].
  - eapply head_not_URL; [apply Ha, list_elem_of_fmap; by exists (k, v)|done].
  - by apply list_elem_of_singleton in Hin as [= -> _].
Qed.

Lemma format_login_without_uris_witness :
  ∃ d, BWItem.format Sample.door = Ok (BWItem.render d)
       ∧ Forall (λ kv, PyStr.startswith kv.1 "URL" = false) d.
Proof.
  eexists. 
  pose proof (format_login_without_uris Sample.door _ _ eq_refl eq_refl
                (or_intror (ex_intro _ _ (conj eq_refl eq_refl))) eq_refl)
    as [Hf Hk].
  split; [exact Hf|]. apply Forall_forall, Hk.
Defined.

Section text_facts.

Lemma endswith_refl s : PyStr.endswith s s = true.
Proof. destruct s; cbn [PyStr.endswith]; by rewrite decide_True. Qed.

Lemma endswith_app p s suf :
  PyStr.endswith s suf = true → PyStr.endswith (p +:+ s) suf = true.
Proof.
  intros Hs. induction p as [|c p IH]; [done|].
  rewrite app_cons_s. cbn [PyStr.endswith]. by case_decide.
Qed.

Lemma text_of_app kvs1 kvs2 : text_of (kvs1 ++ kvs2) = text_of kvs1 +:+ text_of kvs2.
Proof.
  induction kvs1 as [|kv kvs1 IH]; [done|].
  cbn [app text_of fold_right]. fold (text_of (kvs1 ++ kvs2)). fold (text_of kvs1).
  by rewrite IH, !app_assoc_s.
Qed.

Lemma text_of_line_start kvs : at_line_start (text_of kvs).
Proof.
  destruct kvs as [|kv kvs]; [by left|]. right.
  revert kv. induction kvs as [|kv' kvs IH]; intros kv.
  - cbn [text_of fold_right]. apply endswith_app.
    rewrite app_nil_r_s. apply endswith_refl.
  - change (text_of (kv :: kv' :: kvs))
      with (BWItem.line kv +:+ PyStr.nl +:+ text_of (kv' :: kvs)).
    by apply endswith_app, endswith_app.
Qed.

Lemma render_text d :
  BWItem.emitted d ≠ [] → BWItem.render d = text_of (BWItem.emitted d).
Proof.
  unfold BWItem.render. generalize (BWItem.emitted d). intros l Hl.
  induction l as [|kv l IH]; [done|]. destruct l as [|kv' l].
  - simpl. by rewrite app_nil_r_s.
  - change (map BWItem.line (kv :: kv' :: l))
      with (BWItem.line kv :: map BWItem.line (kv' :: l)).
    cbn [PyStr.join]. change (text_of (kv :: kv' :: l))
      with (BWItem.line kv +:+ PyStr.nl +:+ text_of (kv' :: l)).
    rewrite <- IH by done. cbn [map]. by rewrite !app_assoc_s.
Qed.

End text_facts.

Section url_lines.

Lemma collect_of_uri_values us vs :
  Forall2 (λ u v, u.["uri"] = Ok v ∧ v ≠ JNull) us vs →
  ∀ index, Entries.collect Entries.of_uri index us = Ok (url_entries index vs).
Proof.
  induction 1 as [|u v us vs [Hu _] _ IH]; intros index; [done|].
  cbn [Entries.collect url_entries].
  assert (Entries.of_uri index u = Ok [(BWItem.url_key index, v)]) as ->.
  { unfold Entries.of_uri. by rewrite Hu. }
  by rewrite !bind_Ok, IH.
Qed.

Lemma url_entries_emitted vs index :
  Forall (λ v, v ≠ JNull) vs →
  BWItem.emitted (url_entries index vs) = url_entries index vs.
Proof.
  intros Hvs. apply emitted_all. revert index.
  induction Hvs as [|v vs Hv _ IH]; intros index; [done|].
  cbn [url_entries]. by constructor.
Qed.

Lemma text_of_url_entries vs index :
  text_of (url_entries index vs) = Spec.numbered_url_lines (index + 1) vs.
Proof.
  revert index. induction vs as [|v vs IH]; intros index; [done|].
  cbn [url_entries text_of fold_right Spec.numbered_url_lines].
  fold (text_of (url_entries (S index) vs)). rewrite IH.
  unfold BWItem.line, BWItem.url_key. cbn [fst snd].
  by rewrite !app_assoc_s.
Qed.

(** The body of a login, cut around the lines of its URIs. *)
Lemma login_body item login d urls :
  item.["type"] = Ok (JInt 1) →
  item.["login"] = Ok login →
  BWItem.format_dict item = Ok d →
  Entries.of_uris login = Ok urls →
  BWItem.emitted urls = urls → urls ≠ [] →
  ∃ pre post,
    BWItem.render d = pre +:+ text_of urls +:+ post ∧ at_line_start pre.
Proof.
  intros Hty Hlogin Hd Hu Hem Hne.
  destruct (login_record _ _ _ Hty Hlogin Hd)
    as (name & u & p & t & urls' & custom & attached & notes & Hu' & _ & _ & ->).
  rewrite Hu in Hu'. injection Hu' as <-.
  rewrite render_text.
  2:{ rewrite !emitted_app, Hem. destruct urls; [done|].
      intros Hnil. apply app_eq_nil in Hnil as [_ Hnil]. done. }
  rewrite !emitted_app, Hem, !text_of_app.
  eexists _, _. split; [reflexivity|]. apply text_of_line_start.
Qed.

End url_lines.

(** C2.  Take a login item whose URIs all have a value.  With exactly one
    URI of value [v] the body has the line [URL: v].  With [N > 1] URIs the
    body has the lines [URL 1: v1] to [URL N: vN], one after the other, in
    the order of the list. *)
Theorem format_login_urls (item login : json) (us vs : list json) (body : string) :
  item.["type"] = Ok (JInt 1) →
  item.["login"] = Ok login →
  login.["uris"] = Ok (JList us) →
  Forall2 (λ u v, u.["uri"] = Ok v ∧ v ≠ JNull) us vs →
  BWItem.format item = Ok body →
  (∀ v, vs = [v] →
     ∃ pre post,
       body = pre +:+ ("URL: " +:+ Py.str v +:+ PyStr.nl) +:+ post
       ∧ at_line_start pre)
  ∧ ((1 < length vs)%nat →
     ∃ pre post,
       body = pre +:+ Spec.numbered_url_lines 1 vs +:+ post
       ∧ at_line_start pre).
Proof.
  intros Hty Hlogin Huris Hvs Hbody.
  unfold BWItem.format in Hbody.
  apply bind_Ok_inv in Hbody as (d & Hd & [= <-]).
  assert (Py.get login "uris" (JList []) = Ok (JList us)) as Hget.
  { destruct login as [| | | | |o]; try done. simpl in *.
    by destruct (Py.assoc "uris" o) as [x|]; simplify_eq. }
  assert (Forall (λ v, v ≠ JNull) vs) as Hnn.
  { clear -Hvs. induction Hvs as [|???? [_ ?]]; by constructor. }
  pose proof (Forall2_length _ _ _ Hvs) as Hlen.
  split.
  - intros v ->. destruct us as [|u [|??]]; try done.
    apply Forall2_cons_1 in Hvs as [[Hu Hv] _].
    destruct (login_body item login d [("URL", v)]) as (pre & post & -> & Hpre);
      try done.
    + unfold Entries.of_uris. rewrite Hget. simpl. by rewrite Hu.
    + apply emitted_all. by constructor.
    + exists pre, post. split; [|done]. cbn [text_of fold_right].
      unfold BWItem.line. cbn [fst snd]. by rewrite app_nil_r_s.
  - intros HN.
    destruct (login_body item login d (url_entries 0 vs))
      as (pre & post & -> & Hpre); try done.
    + unfold Entries.of_uris. rewrite Hget, bind_Ok. cbn [Py.len].
      rewrite bind_Ok, Hlen.
      destruct (Nat.eqb_spec (length vs) 1) as [|_]; [lia|].
      cbn [Py.iter]. rewrite bind_Ok. by apply collect_of_uri_values.
    + by apply url_entries_emitted.
    + destruct vs; [simpl in HN; lia|done].
    + exists pre, post. by rewrite text_of_url_entries.
Qed.

Lemma format_login_urls_witness :
  (∃ pre post,
     BWItem.format Sample.bank
     = Ok (pre +:+ ("URL: https://bank.example" +:+ PyStr.nl) +:+ post)
     ∧ at_line_start pre)
  ∧ (∃ pre post,
       BWItem.format Sample.mail
       = Ok (pre
             +:+ ("URL 1: https://mail.example" +:+ PyStr.nl
                  +:+ "URL 2: https://webmail.example" +:+ PyStr.nl)
             +:+ post)
       ∧ at_line_start pre).
Proof.
  split.
  - destruct (proj1 (format_login_urls Sample.bank _
                       [JDict [("uri", JStr "https://bank.example")]]
                       [JStr "https://bank.example"] _
                       eq_refl eq_refl eq_refl
                       ltac:(repeat constructor; discriminate) eq_refl)
                _ eq_refl) as (pre & post & Hbody & Hpre).
    exists pre, post. split; [exact (f_equal Ok Hbody)|exact Hpre].
  - destruct (proj2 (format_login_urls Sample.mail _
                       [JDict [("uri", JStr "https://mail.example")];
                        JDict [("uri", JStr "https://webmail.example")]]
                       [JStr "https://mail.example";
                        JStr "https://webmail.example"] _
                       eq_refl eq_refl eq_refl
                       ltac:(repeat constructor; discriminate) eq_refl)
                ltac:(simpl; lia)) as (pre & post & Hbody & Hpre).
    exists pre, post. split; [exact (f_equal Ok Hbody)|exact Hpre].
Defined.

Lemma labels_number_by_position_witness :
  ∃ d, BWItem.format Sample.bank = Ok (BWItem.render d)
       ∧ written_as d "[Custom Field 2] hint" JNull
       ∧ written_as d "[Custom Field 3] branch" (JStr "north")
       ∧ written_as d "Attachment 0 File Name" (JStr "card.pdf").
Proof.
  eexists.
  pose proof (labels_number_by_position Sample.bank _ _ _ eq_refl eq_refl eq_refl)
    as (Hf & Hfields & Hatts).
  split; [exact Hf|].
  destruct (Hfields 1%nat _ eq_refl) as (n1 & v1 & [= <-] & [= <-] & H1).
  destruct (Hfields 2%nat _ eq_refl) as (n2 & v2 & [= <-] & [= <-] & H2).
  destruct (Hatts 0%nat _ eq_refl) as (a & b & c & [= <-] & _ & _ & H3 & _).
  split_and!; [exact H1|exact H2|exact H3].
Defined.

(** ** The numbers of the attachments *)

(** C5 (the script departs from it).  The first attachment of an item is
    written as [Attachment 0 ...], while the first custom field is written
    as [[Custom Field 1] ...] and the first of several URIs as [URL 1]. *)
Theorem format_numbers_attachments_from_zero :
  BWItem.format Sample.bank
  = Ok (PyStr.join PyStr.nl
          ["Name: My Bank";
           "Username: alice";
           "URL: https://bank.example";
           "[Custom Field 1] pin: 1234";
           "[Custom Field 3] branch: north";
           "Attachment 0 File Name: card.pdf";
           "Attachment 0 File Size: 12 KB";
           "Attachment 0 URL: https://vault.example/card.pdf";
           "Notes: call before noon"]
        +:+ PyStr.nl).
Proof. reflexivity. Qed.

(** ** [BWCli.unlock] *)

Section unlock_facts.

Lemma nonempty_length (s : string) : s ≠ "" ↔ (0 <? String.length s)%nat = true.
Proof. destruct s; simpl; split; (done || lia || congruence). Qed.

Lemma first_nonempty (f : nat → string) (n : nat) :
  f n ≠ "" →
  ∃ k, (k ≤ n)%nat ∧ f k ≠ "" ∧ ∀ m, (m < k)%nat → f m = "".
Proof.
  revert f. induction n as [|n IH]; intros f Hn.
  { exists 0%nat. split_and!; [lia|done|lia]. }
  destruct (decide (f 0%nat = "")) as [H0|H0].
  - destruct (IH (λ i, f (S i)) Hn) as (k & Hk & Hfk & Hlt).
    exists (S k). split_and!; [lia|done|].
    intros [|m] Hm; [done|]. apply Hlt. lia.
  - exists 0%nat. split_and!; [lia|done|lia].
Qed.

Lemma unlock_returns bw k :
  ∀ fuel w,
    (∀ m, (m < k)%nat → unlock_output bw (unlock_runs w + m) = "") →
    unlock_output bw (unlock_runs w + k) ≠ "" →
    (k < fuel)%nat →
    ∃ w', BWCli.unlock bw fuel w = Some (w', unlock_output bw (unlock_runs w + k))
          ∧ unlock_runs w' = (unlock_runs w + k + 1)%nat
          ∧ files w' = files w ∧ effects w' = effects w.
Proof.
  induction k as [|k IH]; intros [|fuel] w Hempty Hk Hfuel; try lia.
  - cbn [BWCli.unlock]. rewrite Nat.add_0_r in Hk.
    apply nonempty_length in Hk. rewrite Hk. rewrite Nat.add_0_r.
    eexists. split_and!; [reflexivity|simpl; lia|done..].
  - cbn [BWCli.unlock].
    pose proof (Hempty 0%nat ltac:(lia)) as H0. rewrite Nat.add_0_r in H0.
    rewrite H0. cbn [String.length Nat.ltb Nat.leb].
    match goal with |- context [BWCli.unlock bw fuel ?w1] =>
      destruct (IH fuel w1) as (w' & Hw' & Hruns & Hfiles & Heff) end.
    + intros m Hm. cbn [unlock_runs].
      replace (S (unlock_runs w) + m)%nat
        with (unlock_runs w + S m)%nat by lia.
      apply Hempty. lia.
    + cbn [unlock_runs].
      by replace (S (unlock_runs w) + k)%nat
        with (unlock_runs w + S k)%nat by lia.
    + lia.
    + cbn [unlock_runs] in Hw', Hruns.
      replace (S (unlock_runs w) + k)%nat
        with (unlock_runs w + S k)%nat in Hw' by lia.
      exists w'. split_and!; [done|lia|done..].
Qed.

Lemma unlock_nonempty bw fuel :
  ∀ w w' session, BWCli.unlock bw fuel w = Some (w', session) → session ≠ "".
Proof.
  induction fuel as [|fuel IH]; intros w w' session; [done|].
  cbn [BWCli.unlock].
  destruct (0 <? String.length (unlock_output bw (unlock_runs w)))%nat eqn:Hlen.
  - intros [= _ <-]. by apply nonempty_length.
  - apply IH.
Qed.

End unlock_facts.

(** C8.  Let the [n]-th run of [bw unlock --raw] from now on print
    [unlock_output bw (unlock_runs w + n)].  If some run prints a non-empty
    text, there is a first such run, and [unlock] returns its output as soon
    as it is given the attempts to reach it.  Whatever [unlock] returns is
    not the empty string. *)
Theorem unlock_first_nonempty (bw : bw_tool) (w : world) :
  (∀ n, unlock_output bw (unlock_runs w + n) ≠ "" →
     ∃ k, (k ≤ n)%nat
          ∧ unlock_output bw (unlock_runs w + k) ≠ ""
          ∧ (∀ m, (m < k)%nat → unlock_output bw (unlock_runs w + m) = "")
          ∧ ∀ fuel, (k < fuel)%nat →
              ∃ w', BWCli.unlock bw fuel w
                    = Some (w', unlock_output bw (unlock_runs w + k)))
  ∧ (∀ fuel w' session,
       BWCli.unlock bw fuel w = Some (w', session) → session ≠ "").
Proof.
  split; [|intros fuel; apply unlock_nonempty].
  intros n Hn.
  destruct (first_nonempty (λ i, unlock_output bw (unlock_runs w + i)) n Hn)
    as (k & Hk & Hfk & Hlt).
  exists k. split_and!; [done..|]. intros fuel Hfuel.
  destruct (unlock_returns bw k fuel w Hlt Hfk Hfuel) as (w' & Hw' & _).
  by exists w'.
Qed.

Lemma unlock_first_nonempty_witness :
  ∃ w', BWCli.unlock Sample.vault 3 Sample.store = Some (w', "c2Vzc2lvbg==").
Proof.
  destruct (proj1 (unlock_first_nonempty Sample.vault Sample.store) 5%nat)
    as (k & Hk & Hfk & Hlt & Hrun); [done|].
  assert (k = 2%nat) as ->.
  { destruct k as [|[|[|k]]]; [by destruct Hfk|by destruct Hfk|done|].
    by specialize (Hlt 2%nat ltac:(lia)). }
  exact (Hrun 3%nat ltac:(lia)).
Defined.

(** ** The loop of [main] *)

Section loop_facts.

Lemma world_eta w : World (files w) (stdout w) (effects w) (unlock_runs w) = w.
Proof. by destruct w. Qed.

Lemma sync_item_run item w :
  sync_item item w
  = match BWItem.passname item, BWItem.format item with
    | Ok name, Ok content =>
        (World (<[PassCli.get_file_path name := content]> (files w))
               (stdout w ++ loop_output (files w) [(name, content)])
               (effects w ++ loop_effects (files w) [(name, content)])
               (unlock_runs w),
         Ok tt)
    | Ok _, Raise e => (w, Raise e)
    | Raise e, _ => (w, Raise e)
    end.
Proof.
  unfold sync_item, mbind, prog_bind, lift.
  destruct (BWItem.passname item) as [name|e]; [|done].
  destruct (BWItem.format item) as [content|e]; [|done].
  unfold PassCli.pass_exists, PassCli.remove_force, PassCli.insert, print, mret,
    prog_ret.
  cbn [loop_output loop_effects].
  destruct (files w !! PassCli.get_file_path name) as [old|] eqn:Hold; simpl.
  - rewrite Hold. simpl. by rewrite insert_delete_eq, <- !app_assoc.
  - done.
Qed.

Lemma for_each_sync_item items :
  ∀ w,
    for_each sync_item items w
    = (World (store_writes (writes_of items) (files w))
             (stdout w ++ loop_output (files w) (writes_of items))
             (effects w ++ loop_effects (files w) (writes_of items))
             (unlock_runs w),
       loop_result items).
Proof.
  induction items as [|item items IH]; intros w.
  { simpl. by rewrite !app_nil_r, world_eta. }
  cbn [for_each writes_of loop_result]. unfold mbind, prog_bind.
  rewrite sync_item_run.
  destruct (BWItem.passname item) as [name|e].
  2:{ simpl. by rewrite !app_nil_r, world_eta. }
  destruct (BWItem.format item) as [content|e].
  2:{ simpl. by rewrite !app_nil_r, world_eta. }
  rewrite IH. cbn [files stdout effects unlock_runs].
  cbn [loop_output loop_effects store_writes foldl fst snd].
  by rewrite <- !app_assoc.
Qed.

End loop_facts.

(** ** Writes to the password store *)

Section store_facts.

Implicit Types (m : gmap string string) (ws : list (string * string)).

Lemma length_app_s (s t : string) :
  String.length (s +:+ t) = (String.length s + String.length t)%nat.
Proof.
  induction s as [|c s IH]; [done|]. rewrite app_cons_s. simpl. by rewrite IH.
Qed.

Lemma app_inj_r_s (s1 s2 t : string) : s1 +:+ t = s2 +:+ t → s1 = s2.
Proof.
  revert s2. induction s1 as [|c s1 IH]; intros [|c' s2] Heq.
  - done.
  - apply (f_equal String.length) in Heq.
    rewrite !length_app_s in Heq. simpl in Heq. lia.
  - apply (f_equal String.length) in Heq.
    rewrite !length_app_s in Heq. simpl in Heq. lia.
  - rewrite !app_cons_s in Heq. injection Heq as -> Heq. f_equal. by apply IH.
Qed.

Lemma get_file_path_inj name name' :
  PassCli.get_file_path name = PassCli.get_file_path name' → name = name'.
Proof. apply app_inj_r_s. Qed.

Lemma inserted_loop_effects ws : ∀ m, inserted (loop_effects m ws) = ws.
Proof.
  induction ws as [|[name content] ws IH]; intros m; [done|].
  cbn [loop_effects]. unfold inserted in *. rewrite flat_map_app.
  case_bool_decide; simpl; by rewrite IH.
Qed.


Lemma lookup_store_writes ws :
  ∀ m path, store_writes ws m !! path = last_write path ws (m !! path).
Proof.
  induction ws as [|[name content] ws IH]; intros m path; [done|].
  unfold store_writes, last_write in *. cbn [foldl fst snd]. rewrite IH.
  f_equal. rewrite lookup_insert. by repeat case_decide.
Qed.


Lemma store_writes_other ws m path :
  (∀ nc, nc ∈ ws → path ≠ PassCli.get_file_path nc.1) →
  store_writes ws m !! path = m !! path.
Proof.
  rewrite lookup_store_writes. generalize (m !! path). unfold last_write.
  induction ws as [|[name content] ws IH]; intros before Hne; [done|].
  cbn [foldl fst snd]. rewrite decide_False.
  - apply IH. intros nc Hnc. apply Hne. by right.
  - intros Heq. by apply (Hne (name, content)); [left|].
Qed.




End store_facts.

(** ** The run of [main] *)

Section main_facts.





Lemma passnames_writes items :
  loop_result items = Ok tt → passnames items = Ok (writes_of items).*1.
Proof.
  induction items as [|item items IH]; [done|].
  cbn [loop_result passnames writes_of].
  destruct (BWItem.passname item) as [name|e]; [|done].
  destruct (BWItem.format item) as [content|e]; [|done].
  intros Hr. by rewrite bind_Ok, (IH Hr).
Qed.

Lemma for_each_print (f : string → string) l :
  ∀ w, for_each (λ entry, print (f entry)) l w
       = (World (files w) (stdout w ++ (f <$> l)) (effects w) (unlock_runs w),
          Ok tt).
Proof.
  induction l as [|x l IH]; intros w.
  { simpl. by rewrite app_nil_r, world_eta. }
  cbn [for_each]. unfold mbind, prog_bind, print at 1. rewrite IH. simpl.
  by rewrite <- app_assoc.
Qed.

(** [sync_store] in one piece. *)
Lemma sync_store_run items w :
  sync_store items w
  = let ws := writes_of items in
    let after :=
      World (store_writes ws (files w))
            (stdout w ++ loop_output (files w) ws)
            (effects w ++ loop_effects (files w) ws)
            (unlock_runs w) in
    match loop_result items with
    | Ok _ =>
        (World (files after)
               (stdout after
                ++ orphan_warning
                     (ignored_entries (PassCli.entry_names (files w)) ws.*1))
               (effects after) (unlock_runs after),
         Ok tt)
    | Raise e => (after, Raise e)
    end.
Proof.
  unfold sync_store, mbind, prog_bind, PassCli.list_pass_names, lift, mret,
    prog_ret.
  rewrite for_each_sync_item.
  destruct (loop_result items) as [[]|e] eqn:Hr; [|done].
  rewrite (passnames_writes _ Hr). cbn zeta.
  destruct (ignored_entries _ _) as [|entry orphans] eqn:Hig.
  { simpl. by rewrite app_nil_r. }
  cbn [length Nat.ltb Nat.leb orphan_warning]. unfold print at 1.
  rewrite for_each_print. simpl. by rewrite <- app_assoc.
Qed.

Lemma unlock_frame bw fuel :
  ∀ w w' session,
    BWCli.unlock bw fuel w = Some (w', session) →
    files w' = files w ∧ effects w' = effects w.
Proof.
  induction fuel as [|fuel IH]; intros w w' session; [done|].
  cbn [BWCli.unlock]. case_match.
  - by intros [= <- _].
  - intros [??]%IH. done.
Qed.

(** [main] is [sync_store] run on the items of the vault, from a world with
    the same password store. *)
Lemma main_run bw fuel w w' r :
  main bw fuel w = Some (w', r) →
  ∃ w0, files w0 = files w ∧ effects w0 = effects w
        ∧ sync_store (vault_items bw) w0 = (w', r).
Proof.
  unfold main. simpl.
  destruct (BWCli.unlock _ _ _) as [[w1 session]|] eqn:Hunlock; [|done].
  apply unlock_frame in Hunlock as [Hf He]. simpl in Hf, He.
  intros [= H]. unfold mbind, prog_bind, BWCli.sync, BWCli.list_items, print,
    mret, prog_ret, mbind, prog_bind in H. simpl in H.
  eexists. split_and!; [| |exact H]; done.
Qed.

(** [main] returns once [unlock] has its token. *)
Lemma main_returns bw fuel w k :
  (∀ m, (m < k)%nat → unlock_output bw (unlock_runs w + m) = "") →
  unlock_output bw (unlock_runs w + k) ≠ "" →
  (k < fuel)%nat →
  ∃ w' r, main bw fuel w = Some (w', r).
Proof.
  intros Hempty Hk Hfuel. unfold main. simpl.
  match goal with |- context [BWCli.unlock bw fuel ?w1] =>
    destruct (unlock_returns bw k fuel w1 Hempty Hk Hfuel) as (w2 & -> & _) end.
  match goal with |- ∃ w' r, Some ?p = _ => exists p.1, p.2; by destruct p end.
Qed.

End main_facts.

Section writes_facts.

Lemma writes_of_elem items name content :
  (name, content) ∈ writes_of items →
  ∃ item, item ∈ items
    ∧ BWItem.passname item = Ok name ∧ BWItem.format item = Ok content.
Proof.
  induction items as [|item items IH]; cbn [writes_of].
  { by intros ?%elem_of_nil. }
  destruct (BWItem.passname item) as [n|e] eqn:Hn; [|by intros ?%elem_of_nil].
  destruct (BWItem.format item) as [c|e] eqn:Hc; [|by intros ?%elem_of_nil].
  intros [[= -> ->]|Hin]%elem_of_cons.
  - exists item. split_and!; [by left|done..].
  - destruct (IH Hin) as (item' & ? & ? & ?). exists item'.
    split_and!; [by right|done..].
Qed.

Lemma writes_of_all items :
  loop_result items = Ok tt →
  Forall2 (λ item nc, BWItem.passname item = Ok nc.1 ∧ BWItem.format item = Ok nc.2)
    items (writes_of items).
Proof.
  induction items as [|item items IH]; cbn [loop_result writes_of]; [by constructor|].
  destruct (BWItem.passname item) as [n|e] eqn:Hn; [|done].
  destruct (BWItem.format item) as [c|e] eqn:Hc; [|done].
  intros Hr. constructor; [done|by apply IH].
Qed.


End writes_facts.

(** ** What a run deletes, and what it reports *)


(** ** Two runs in a row *)




(** ** Items that have all their keys are formatted *)

Section schema_facts.

Lemma has_keys_getitem keys v k :
  Schema.has_keys keys v = true → k ∈ keys → ∃ x, v.[k] = Ok x.
Proof.
  destruct v as [| | | | |d]; try done. simpl.
  rewrite forallb_forall. intros Hkeys Hk%list_elem_of_In.
  apply Hkeys, bool_decide_eq_true in Hk as [x Hx]. exists x. by rewrite Hx.
Qed.

Ltac known_key H :=
  match goal with
  | |- context [Py.getitem ?src ?key] =>
      let x := fresh "x" in
      destruct (has_keys_getitem _ src key H) as [x ->];
      [by apply (bool_decide_unpack _)|rewrite ?bind_Ok]
  end.

Lemma collect_ok f (p : json → bool) :
  (∀ i x, p x = true → ∃ kvs, f i x = Ok kvs) →
  ∀ l i, forallb p l = true → ∃ kvs, Entries.collect f i l = Ok kvs.
Proof.
  intros Hf. induction l as [|x l IH]; intros i; [by exists []|].
  cbn [forallb Entries.collect]. intros [Hx Hl]%andb_prop.
  destruct (Hf i x Hx) as [kvs ->]. destruct (IH (S i) Hl) as [rest ->].
  by eexists.
Qed.

Lemma optional_list_iter key p v :
  Schema.optional_list key p v = true →
  ∃ l, Py.get v key (JList []) = Ok (JList l) ∧ forallb p l = true.
Proof.
  unfold Schema.optional_list.
  destruct (Py.get v key (JList [])) as [[| | | |l|]|]; try done.
  by exists l.
Qed.

Lemma of_uris_ok login :
  Schema.optional_list "uris" (Schema.has_keys ["uri"]) login = true →
  ∃ urls, Entries.of_uris login = Ok urls.
Proof.
  intros (l & Hget & Hl)%optional_list_iter. unfold Entries.of_uris.
  rewrite Hget, bind_Ok. cbn [Py.len]. rewrite bind_Ok.
  destruct (Nat.eqb_spec (length l) 1) as [Hone|_].
  - destruct l as [|u [|??]]; try done. cbn [Py.getitem0]. rewrite bind_Ok.
    simpl in Hl. apply andb_prop in Hl as [Hu _]. known_key Hu. by eexists.
  - cbn [Py.iter]. rewrite bind_Ok. eapply collect_ok; [|exact Hl].
    intros i u Hu. unfold Entries.of_uri. known_key Hu. by eexists.
Qed.

Lemma of_type_ok item :
  Schema.payload item = true →
  ∃ ty typed, BWItem.item_type item = Ok ty ∧ Entries.of_type item ty = Ok typed.
Proof.
  unfold Schema.payload.
  destruct (item.["type"]) as [[| |t| | |]|] eqn:Hty; try done.
  destruct (Z.eqb_spec t 1) as [->|_].
  { destruct (item.["login"]) as [login|] eqn:Hlogin; [|done].
    intros [Hkeys Huris]%andb_prop. exists "login".
    rewrite (item_type_code item 1 Hty) by lia.
    unfold Entries.of_type. simpl. rewrite Hlogin, bind_Ok.
    unfold Entries.of_login. do 3 known_key Hkeys.
    destruct (of_uris_ok _ Huris) as [urls ->]. by eexists. }
  destruct (Z.eqb_spec t 2) as [->|_].
  { intros _. exists "note". rewrite (item_type_code item 2 Hty) by lia.
    by eexists. }
  destruct (Z.eqb_spec t 3) as [->|_].
  { destruct (item.["card"]) as [card|] eqn:Hcard; [|done].
    intros Hkeys. exists "card". rewrite (item_type_code item 3 Hty) by lia.
    unfold Entries.of_type. simpl. rewrite Hcard, bind_Ok.
    unfold BWItem.format_card, BWItem.copy_key. rewrite bind_Ok.
    do 6 known_key Hkeys. by eexists. }
  destruct (Z.eqb_spec t 4) as [->|_]; [|done].
  destruct (item.["identity"]) as [person|] eqn:Hid; [|done].
  intros Hkeys. exists "identity". rewrite (item_type_code item 4 Hty) by lia.
  unfold Entries.of_type. simpl. rewrite Hid, bind_Ok.
  unfold BWItem.format_identity, BWItem.copy_key. rewrite bind_Ok.
  do 18 known_key Hkeys. by eexists.
Qed.

Lemma of_field_ok i field :
  Schema.has_keys ["name"; "value"] field = true →
  ∃ kvs, Entries.of_field i field = Ok kvs.
Proof.
  intros Hk. unfold Entries.of_field. do 2 known_key Hk. by eexists.
Qed.

Lemma of_attachment_ok i attachment :
  Schema.has_keys ["fileName"; "sizeName"; "url"] attachment = true →
  ∃ kvs, Entries.of_attachment i attachment = Ok kvs.
Proof.
  intros Hk. unfold Entries.of_attachment. do 3 known_key Hk. by eexists.
Qed.

(** An item that has all its keys gets a name and a body. *)
Theorem item_is_formatted item :
  Schema.item item = true →
  ∃ name body, BWItem.passname item = Ok name ∧ BWItem.format item = Ok body.
Proof.
  unfold Schema.item.
  intros [[[[Hnamed Hnotes]%andb_prop Hpayload]%andb_prop Hfields]%andb_prop
            Hatts]%andb_prop.
  destruct (of_type_ok _ Hpayload) as (ty & typed & Hty & Htyped).
  unfold Schema.named in Hnamed.
  destruct (item.["id"]) as [[| | |id| |]|] eqn:Hid; try done.
  destruct (item.["name"]) as [[| | |s| |]|] eqn:Hname; try done.
  apply optional_list_iter in Hfields as (fields & Hget & Hf).
  destruct (collect_ok Entries.of_field _ of_field_ok fields 0%nat Hf)
    as [custom Hcustom].
  apply optional_list_iter in Hatts as (atts & Hget' & Ha).
  destruct (collect_ok Entries.of_attachment _ of_attachment_ok atts 0%nat Ha)
    as [attached Hattached].
  destruct (has_keys_getitem _ item "notes" Hnotes) as [notes Hn];
    [by apply (bool_decide_unpack _)|].
  eexists _, _. split.
  - unfold BWItem.passname. rewrite Hid, Hname, Hty. reflexivity.
  - unfold BWItem.format. rewrite format_dict_entries. unfold Entries.of_item.
    rewrite Hty, Hname, !bind_Ok, Htyped, bind_Ok.
    unfold Entries.of_fields. rewrite Hget, !bind_Ok. cbn [Py.iter].
    rewrite bind_Ok, Hcustom, bind_Ok.
    unfold Entries.of_attachments. rewrite Hget', !bind_Ok. cbn [Py.iter].
    rewrite bind_Ok, Hattached, bind_Ok, Hn. reflexivity.
Qed.

Lemma loop_result_ok items :
  forallb Schema.item items = true → loop_result items = Ok tt.
Proof.
  induction items as [|item items IH]; [done|].
  cbn [forallb loop_result]. intros [Hitem Hitems]%andb_prop.
  destruct (item_is_formatted _ Hitem) as (name & body & -> & ->). by apply IH.
Qed.

(** Over a vault of items that have all their keys, a run reaches its end. *)
Lemma main_reaches_end bw fuel w w' r :
  forallb Schema.item (vault_items bw) = true →
  main bw fuel w = Some (w', r) → r = Ok tt.
Proof.
  intros Hitems (w0 & _ & _ & Hrun)%main_run.
  rewrite sync_store_run, (loop_result_ok _ Hitems) in Hrun.
  by injection Hrun.
Qed.

Example sample_items_have_their_keys :
  forallb Schema.item
    [Sample.bank; Sample.mail; Sample.door; Sample.card; Sample.wifi] = true.
Proof. reflexivity. Qed.

End schema_facts.

(** * More properties of the script *)

(** ** The stem of an entry name *)

Section stem_facts.

Lemma lower_char_idem c : PyStr.lower_char (PyStr.lower_char c) = PyStr.lower_char c.
Proof. by destruct c as [[] [] [] [] [] [] [] []]. Qed.

Lemma lower_idem s : PyStr.lower (PyStr.lower s) = PyStr.lower s.
Proof. induction s as [|c s IH]; [done|]. simpl. by rewrite IH, lower_char_idem. Qed.

Lemma name_stem_lower_first s :
  name_stem s = PyStr.sub_spaces (PyStr.sub_seps (PyStr.lower s)).
Proof.
  unfold name_stem, PyStr.sub_spaces. by rewrite lower_sub_spaces_from, lower_sub_seps.
Qed.

Lemma is_sep_not_space c : PyStr.is_sep c = true → PyStr.is_space c = false.
Proof. by destruct c as [[] [] [] [] [] [] [] []]. Qed.

(** Substituting a second time changes nothing. *)
Lemma sub_twice x :
  ∀ b, PyStr.sub_spaces_from b (PyStr.sub_seps (PyStr.sub_spaces_from b (PyStr.sub_seps x)))
       = PyStr.sub_spaces_from b (PyStr.sub_seps x).
Proof.
  induction x as [|c x IH]; intros b; [done|].
  cbn [PyStr.sub_seps PyStr.sub_spaces_from].
  destruct (PyStr.is_sep c) eqn:Hsep.
  - change (PyStr.is_space " ") with true. cbn iota. destruct b.
    + apply IH.
    + cbn [PyStr.sub_seps PyStr.sub_spaces_from].
      change (PyStr.is_sep "-") with true. cbn iota.
      change (PyStr.is_space " ") with true. cbn iota. by rewrite IH.
  - destruct (PyStr.is_space c) eqn:Hsp.
    + destruct b.
      * apply IH.
      * cbn [PyStr.sub_seps PyStr.sub_spaces_from].
        change (PyStr.is_sep "-") with true. cbn iota.
        change (PyStr.is_space " ") with true. cbn iota. by rewrite IH.
    + cbn [PyStr.sub_seps PyStr.sub_spaces_from]. rewrite Hsep, Hsp.
      by rewrite IH.
Qed.

End stem_facts.

Section stem_chars.

(** The text the two substitutions leave has no space, no underscore, no
    bar, and no hyphen after a hyphen. *)
Lemma sub_chars x :
  ∀ b,
    let v := PyStr.sub_spaces_from b (PyStr.sub_seps x) in
    PyStr.contains_char " " v = false
    ∧ PyStr.contains_char "_" v = false
    ∧ PyStr.contains_char "|" v = false
    ∧ contains v "--" = false
    ∧ (b = true → PyStr.startswith v "-" = false).
Proof.
  induction x as [|c x IH]; intros b; [by destruct b|].
  cbn [PyStr.sub_seps PyStr.sub_spaces_from]. cbn zeta.
  destruct (IH true) as (T1 & T2 & T3 & T4 & T5).
  destruct (IH false) as (F1 & F2 & F3 & F4 & _).
  specialize (T5 eq_refl). unfold PyStr.contains_char in *.
  assert (∀ v, PyStr.startswith v "-" = false → contains v "--" = false →
            contains (String "-" v) "--" = false) as Hcons.
  { intros v Hv Hvv. cbn [contains PyStr.startswith]. rewrite Hvv, orb_false_r.
    destruct v as [|c' v]; [done|]. cbn [PyStr.startswith] in *.
    by rewrite Hv. }
  assert (PyStr.is_space
            (if PyStr.is_sep c then " "%char else c)
          = PyStr.is_sep c || PyStr.is_space c) as ->.
  { by destruct (PyStr.is_sep c). }
  destruct (PyStr.is_sep c || PyStr.is_space c) eqn:Hc.
  - destruct b.
    + by split_and!.
    + cbn [list_ascii_of_string existsb]. rewrite T1, T2, T3.
      split_and!; [done..| |done]. by apply Hcons.
  - apply orb_false_elim in Hc as [Hsep Hsp]. rewrite Hsep.
    cbn [list_ascii_of_string existsb]. rewrite F1, F2, F3.
    assert (c ≠ " " ∧ c ≠ "_" ∧ c ≠ "|" ∧ c ≠ "-")%char as (N1 & N2 & N3 & N4).
    { split_and!; intros ->; done. }
    split_and!.
    + by destruct (Ascii.eqb_spec " " c).
    + by destruct (Ascii.eqb_spec "_" c).
    + by destruct (Ascii.eqb_spec "|" c).
    + cbn [contains PyStr.startswith]. rewrite F4.
      by destruct (Ascii.eqb_spec "-" c).
    + intros _. cbn [PyStr.startswith]. by destruct (Ascii.eqb_spec "-" c).
Qed.

End stem_chars.

Section passname_more.

Lemma passname_stem item id s t :
  item.["id"] = Ok (JStr id) →
  item.["name"] = Ok (JStr s) →
  item.["type"] = Ok (JInt t) →
  1 ≤ t ≤ 4 →
  BWItem.passname item
  = Ok (name_stem s +:+ "-" +:+ Spec.type_label t +:+ "-"
        +:+ PyStr.slice_to 4 (PyStr.split_head "-" id)).
Proof.
  intros Hid Hname Hty Hr.
  unfold BWItem.passname. by rewrite Hid, Hname, (item_type_code _ _ Hty Hr).
Qed.

Lemma split_head_no_sep sep s :
  PyStr.contains_char sep (PyStr.split_head sep s) = false.
Proof.
  unfold PyStr.contains_char. induction s as [|c s IH]; [done|].
  cbn [PyStr.split_head]. destruct (Ascii.eqb_spec c sep) as [->|Hne]; [done|].
  cbn [list_ascii_of_string existsb]. rewrite IH, orb_false_r.
  destruct (Ascii.eqb_spec sep c); congruence.
Qed.

Lemma slice_to_no_char n sep s :
  PyStr.contains_char sep s = false →
  PyStr.contains_char sep (PyStr.slice_to n s) = false.
Proof.
  unfold PyStr.contains_char. revert s.
  induction n as [|n IH]; intros [|c s]; try done.
  cbn [PyStr.slice_to list_ascii_of_string existsb].
  intros [-> Hs]%orb_false_elim. by rewrite IH.
Qed.

Lemma slice_to_length n s : (String.length (PyStr.slice_to n s) ≤ n)%nat.
Proof.
  revert s. induction n as [|n IH]; intros [|c s]; simpl; try lia.
  specialize (IH s). lia.
Qed.

End passname_more.

(** X1.  The entry name of an item is made of a stem, the type label and a
    tail.  The stem, made of the display name, has no space, underscore or
    bar, no upper-case ASCII letter and no two hyphens in a row; the tail,
    made of the identifier, has at most four characters and no hyphen. *)
Theorem passname_parts_are_clean (item : json) (id s : string) (t : Z) :
  item.["id"] = Ok (JStr id) →
  item.["name"] = Ok (JStr s) →
  item.["type"] = Ok (JInt t) →
  1 ≤ t ≤ 4 →
  ∃ stem tail,
    BWItem.passname item
    = Ok (stem +:+ "-" +:+ Spec.type_label t +:+ "-" +:+ tail)
    ∧ PyStr.contains_char " " stem = false
    ∧ PyStr.contains_char "_" stem = false
    ∧ PyStr.contains_char "|" stem = false
    ∧ contains stem "--" = false
    ∧ PyStr.lower stem = stem
    ∧ PyStr.contains_char "-" tail = false
    ∧ (String.length tail ≤ 4)%nat.
Proof.
  intros Hid Hname Hty Hr.
  exists (name_stem s), (PyStr.slice_to 4 (PyStr.split_head "-" id)).
  split; [by apply passname_stem|].
  destruct (sub_chars (PyStr.lower s) false) as (H1 & H2 & H3 & H4 & _).
  cbn zeta in *. fold (PyStr.sub_spaces (PyStr.sub_seps (PyStr.lower s))) in *.
  rewrite <- name_stem_lower_first in *.
  split_and!; [done..| | |].
  - unfold name_stem. apply lower_idem.
  - apply slice_to_no_char, split_head_no_sep.
  - apply slice_to_length.
Qed.

Lemma passname_parts_are_clean_witness :
  ∃ stem tail,
    BWItem.passname Sample.bank = Ok (stem +:+ "-login-" +:+ tail)
    ∧ PyStr.contains_char " " stem = false
    ∧ contains stem "--" = false
    ∧ (String.length tail ≤ 4)%nat.
Proof.
  destruct (passname_parts_are_clean Sample.bank
              "abc12345-6789-4abc-8def-0123456789ab" "My Bank" 1
              eq_refl eq_refl eq_refl ltac:(lia))
    as (stem & tail & Hn & H1 & _ & _ & H4 & _ & _ & H7).
  exists stem, tail. split_and!; [exact Hn|exact H1|exact H4|exact H7].
Defined.

(** X2.  Making the stem of a stem changes nothing: a display name that
    already has the form of a stem is kept as it is. *)
Theorem name_stem_idempotent (s : string) :
  name_stem (name_stem s) = name_stem s.
Proof.
  rewrite (name_stem_lower_first (name_stem s)).
  unfold name_stem at 1. rewrite lower_idem.
  unfold name_stem, PyStr.sub_spaces.
  rewrite <- lower_sub_seps, <- lower_sub_spaces_from. f_equal. apply sub_twice.
Qed.

(** X3.  The entry name does not tell apart display names that differ in
    case, in their separators or in the length of their runs of spaces, nor
    identifiers that agree on the first four characters before the first
    hyphen: two items of one type with such names and identifiers get the
    same entry name. *)
Theorem passname_collides
    (item1 item2 : json) (id1 id2 s1 s2 : string) (t : Z) :
  item1.["id"] = Ok (JStr id1) → item2.["id"] = Ok (JStr id2) →
  item1.["name"] = Ok (JStr s1) → item2.["name"] = Ok (JStr s2) →
  item1.["type"] = Ok (JInt t) → item2.["type"] = Ok (JInt t) →
  1 ≤ t ≤ 4 →
  name_stem s1 = name_stem s2 →
  PyStr.slice_to 4 (PyStr.split_head "-" id1)
  = PyStr.slice_to 4 (PyStr.split_head "-" id2) →
  BWItem.passname item1 = BWItem.passname item2.
Proof.
  intros Hid1 Hid2 Hn1 Hn2 Ht1 Ht2 Hr Hstem Htail.
  rewrite (passname_stem item1 id1 s1 t), (passname_stem item2 id2 s2 t) by done.
  by rewrite Hstem, Htail.
Qed.

Lemma passname_collides_witness :
  name_stem "My Bank" = name_stem "my_bank"
  ∧ BWItem.passname Sample.bank = BWItem.passname Edge.bank_twin.
Proof.
  split; [vm_compute; reflexivity|].
  apply (passname_collides Sample.bank Edge.bank_twin
           "abc12345-6789-4abc-8def-0123456789ab"
           "abc1ffff-0000-4000-8000-000000000000" "My Bank" "my_bank" 1);
    first [lia|vm_compute; reflexivity].
Defined.

(** ** Reading an entry name back *)

Section parts_facts.

Lemma contains_char_app c s t :
  PyStr.contains_char c (s +:+ String c t) = true.
Proof.
  unfold PyStr.contains_char. induction s as [|a s IH].
  - rewrite app_nil_l_s. cbn [list_ascii_of_string existsb]. by rewrite Ascii.eqb_refl.
  - rewrite app_cons_s. cbn [list_ascii_of_string existsb]. by rewrite IH, orb_true_r.
Qed.

(** A text is cut at its last hyphen in one way only. *)
Lemma cut_at_last_hyphen s1 :
  ∀ s2 t1 t2,
    PyStr.contains_char "-" t1 = false →
    PyStr.contains_char "-" t2 = false →
    s1 +:+ String "-" t1 = s2 +:+ String "-" t2 →
    s1 = s2 ∧ t1 = t2.
Proof.
  induction s1 as [|c s1 IH]; intros [|c' s2] t1 t2 H1 H2.
  - rewrite !app_nil_l_s. by intros [= ->].
  - rewrite app_nil_l_s, app_cons_s. intros [= <- ->].
    by rewrite (contains_char_app "-" s2 t2) in H1.
  - rewrite app_nil_l_s, app_cons_s. intros [= -> <-].
    by rewrite (contains_char_app "-" s1 t1) in H2.
  - rewrite !app_cons_s. intros [= -> H].
    by destruct (IH s2 t1 t2 H1 H2 H) as [-> ->].
Qed.

Lemma type_label_no_hyphen t : PyStr.contains_char "-" (Spec.type_label t) = false.
Proof. by destruct t as [|[[]|[]|]|]. Qed.

Lemma type_label_inj t1 t2 :
  1 ≤ t1 ≤ 4 → 1 ≤ t2 ≤ 4 → Spec.type_label t1 = Spec.type_label t2 → t1 = t2.
Proof.
  intros H1 H2.
  assert (t1 = 1 ∨ t1 = 2 ∨ t1 = 3 ∨ t1 = 4) as [->|[->|[->| ->]]] by lia;
    assert (t2 = 1 ∨ t2 = 2 ∨ t2 = 3 ∨ t2 = 4) as [->|[->|[->| ->]]] by lia;
    done.
Qed.

End parts_facts.

(** X4.  An entry name tells its three parts: two items with the same
    entry name have the same stem, the same type, and identifiers with the
    same first four characters before the first hyphen.  With the property
    before, two items get one entry name exactly when they agree on these
    three. *)
Theorem passname_tells_parts
    (item1 item2 : json) (id1 id2 s1 s2 : string) (t1 t2 : Z) :
  item1.["id"] = Ok (JStr id1) → item2.["id"] = Ok (JStr id2) →
  item1.["name"] = Ok (JStr s1) → item2.["name"] = Ok (JStr s2) →
  item1.["type"] = Ok (JInt t1) → item2.["type"] = Ok (JInt t2) →
  1 ≤ t1 ≤ 4 → 1 ≤ t2 ≤ 4 →
  BWItem.passname item1 = BWItem.passname item2 →
  name_stem s1 = name_stem s2
  ∧ t1 = t2
  ∧ PyStr.slice_to 4 (PyStr.split_head "-" id1)
    = PyStr.slice_to 4 (PyStr.split_head "-" id2).
Proof.
  intros Hid1 Hid2 Hn1 Hn2 Ht1 Ht2 Hr1 Hr2.
  rewrite (passname_stem item1 id1 s1 t1), (passname_stem item2 id2 s2 t2) by done.
  intros [= H].
  rewrite <- (app_assoc_s (name_stem s1) "-"), <- (app_assoc_s (name_stem s2) "-"),
    <- (app_assoc_s (name_stem s1 +:+ "-")),
    <- (app_assoc_s (name_stem s2 +:+ "-")) in H.
  apply (cut_at_last_hyphen _ _ _ _
           (slice_to_no_char 4 "-" _ (split_head_no_sep "-" id1))
           (slice_to_no_char 4 "-" _ (split_head_no_sep "-" id2)))
    in H as [H Htail].
  rewrite !app_assoc_s in H.
  apply (cut_at_last_hyphen _ _ _ _
           (type_label_no_hyphen t1) (type_label_no_hyphen t2))
    in H as [Hstem Hty].
  split_and!; [done| |done]. by apply type_label_inj.
Qed.

Lemma passname_tells_parts_witness :
  name_stem "My Bank" = name_stem "my_bank"
  ∧ 1 = 1
  ∧ PyStr.slice_to 4 (PyStr.split_head "-" "abc12345-6789-4abc-8def-0123456789ab")
    = PyStr.slice_to 4 (PyStr.split_head "-" "abc1ffff-0000-4000-8000-000000000000").
Proof.
  apply (passname_tells_parts Sample.bank Edge.bank_twin
           "abc12345-6789-4abc-8def-0123456789ab"
           "abc1ffff-0000-4000-8000-000000000000" "My Bank" "my_bank" 1 1);
    first [lia|vm_compute; reflexivity].
Defined.

(** X5.  [BWItem.passname] reads the identifier, then the display name, then
    the type code, and stops at the first that fails: an item without an
    identifier raises the [KeyError] of [id] whatever else it lacks; an
    identifier that is no string (it has no [split]) raises
    [AttributeError]; a display name that is no string raises the
    [TypeError] of [re.sub]; and only an item with both strings gets to the
    exception of its type code. *)
Theorem passname_reads_in_order (item : json) :
  (∀ e, item.["id"] = Raise e → BWItem.passname item = Raise e)
  ∧ (∀ v, item.["id"] = Ok v → (∀ s, v ≠ JStr s) →
       BWItem.passname item = Raise AttributeError)
  ∧ (∀ id e, item.["id"] = Ok (JStr id) → item.["name"] = Raise e →
       BWItem.passname item = Raise e)
  ∧ (∀ id v, item.["id"] = Ok (JStr id) → item.["name"] = Ok v →
       (∀ s, v ≠ JStr s) → BWItem.passname item = Raise TypeError)
  ∧ (∀ id s e, item.["id"] = Ok (JStr id) → item.["name"] = Ok (JStr s) →
       BWItem.item_type item = Raise e → BWItem.passname item = Raise e).
Proof.
  unfold BWItem.passname. split_and!.
  - by intros e ->.
  - intros v -> Hv. destruct v; try done. by destruct (Hv s).
  - by intros id e -> ->.
  - intros id v -> -> Hv. destruct v; try done. by destruct (Hv s).
  - by intros id s e -> -> ->.
Qed.

Lemma passname_reads_in_order_witness :
  BWItem.passname (JDict [("name", JInt 7); ("type", JInt 9)])
  = Raise (KeyError (JStr "id"))
  ∧ BWItem.passname (JDict [("id", JNull); ("type", JInt 9)])
    = Raise AttributeError
  ∧ BWItem.passname (JDict [("id", JStr "ab"); ("name", JNull); ("type", JInt 9)])
    = Raise TypeError.
Proof.
  split_and!.
  - apply (proj1 (passname_reads_in_order _)). vm_compute. reflexivity.
  - apply (proj1 (proj2 (passname_reads_in_order _)) JNull);
      [vm_compute; reflexivity|done].
  - apply (proj1 (proj2 (proj2 (proj2 (passname_reads_in_order _)))) "ab" JNull);
      [vm_compute; reflexivity|vm_compute; reflexivity|done].
Defined.

(** ** What a formatter does with a payload that lacks a key *)

Section missing_keys.

Ltac by_keys keys :=
  lazymatch keys with
  | ?k :: ?rest =>
      destruct (Py.assoc k _) eqn:?;
      [cbn [mbind result_bind]; by_keys rest|by intros [= <-]]
  | _ => idtac
  end.

Lemma format_card_first_missing o k :
  first_missing Schema.card_keys o = Some k →
  BWItem.format_card (JDict o) = Raise (KeyError (JStr k)).
Proof.
  unfold first_missing, Schema.card_keys, BWItem.format_card, BWItem.copy_key,
    Py.getitem.
  cbn [find mbind result_bind].
  by_keys ["cardholderName"; "brand"; "number"; "expMonth"; "expYear"; "code"].
  done.
Qed.

Lemma format_identity_first_missing o k :
  first_missing Schema.identity_keys o = Some k →
  BWItem.format_identity (JDict o) = Raise (KeyError (JStr k)).
Proof.
  unfold first_missing, Schema.identity_keys, BWItem.format_identity,
    BWItem.copy_key, Py.getitem.
  cbn [find mbind result_bind].
  by_keys ["title"; "firstName"; "middleName"; "lastName"; "address1";
           "address2"; "address3"; "city"; "state"; "postalCode"; "country";
           "company"; "email"; "phone"; "ssn"; "username"; "passportNumber";
           "licenseNumber"].
  done.
Qed.

Lemma format_login_first_missing o k :
  first_missing Schema.login_keys o = Some k →
  BWItem.format_login (JDict o) = Raise (KeyError (JStr k)).
Proof.
  unfold first_missing, Schema.login_keys, BWItem.format_login, BWItem.copy_key,
    Py.getitem.
  cbn [find mbind result_bind].
  by_keys ["username"; "password"; "totp"].
  done.
Qed.

Lemma first_missing_None keys o :
  first_missing keys o = None → Schema.has_keys keys (JDict o) = true.
Proof.
  unfold first_missing. cbn [Schema.has_keys].
  induction keys as [|k keys IH]; [done|]. cbn [find forallb].
  destruct (Py.assoc k o) eqn:Hk; [|done].
  intros H. rewrite (IH H), andb_true_r. by apply bool_decide_eq_true.
Qed.

End missing_keys.

Section payload_facts.

Ltac all_keys keys :=
  lazymatch keys with
  | ?k :: ?rest =>
      destruct (Py.assoc k _) eqn:?; [cbn [mbind result_bind]; all_keys rest|done]
  | _ => idtac
  end.

Lemma format_card_all_keys o :
  first_missing Schema.card_keys o = None →
  ∃ d, BWItem.format_card (JDict o) = Ok d ∧ d.*1 = card_keys.
Proof.
  unfold first_missing, Schema.card_keys, BWItem.format_card, BWItem.copy_key,
    Py.getitem.
  cbn [find mbind result_bind].
  all_keys ["cardholderName"; "brand"; "number"; "expMonth"; "expYear"; "code"].
  intros _. eexists. split; [reflexivity|]. vm_compute. reflexivity.
Qed.

Lemma format_identity_all_keys o :
  first_missing Schema.identity_keys o = None →
  ∃ d, BWItem.format_identity (JDict o) = Ok d ∧ d.*1 = identity_keys.
Proof.
  unfold first_missing, Schema.identity_keys, BWItem.format_identity,
    BWItem.copy_key, Py.getitem.
  cbn [find mbind result_bind].
  all_keys ["title"; "firstName"; "middleName"; "lastName"; "address1";
            "address2"; "address3"; "city"; "state"; "postalCode"; "country";
            "company"; "email"; "phone"; "ssn"; "username"; "passportNumber";
            "licenseNumber"].
  intros _. eexists. split; [reflexivity|]. vm_compute. reflexivity.
Qed.

End payload_facts.

(** X6.  [BWItem.format_card] reads the six keys of the payload in the order
    of [Schema.card_keys].  A payload that is no dict raises [TypeError]; a
    dict that lacks some of the keys raises the [KeyError] of the first one
    it lacks; a dict that has them all gives a record with the five labels
    of a card, in their order. *)
Theorem format_card_reads_in_order (card : json) :
  match card with
  | JDict o =>
      match first_missing Schema.card_keys o with
      | Some k => BWItem.format_card card = Raise (KeyError (JStr k))
      | None => ∃ d, BWItem.format_card card = Ok d ∧ d.*1 = card_keys
      end
  | _ => BWItem.format_card card = Raise TypeError
  end.
Proof.
  destruct card as [| | | | |o]; try reflexivity.
  destruct (first_missing Schema.card_keys o) as [k|] eqn:Hk.
  - by apply format_card_first_missing.
  - by apply format_card_all_keys.
Qed.

Lemma format_card_reads_in_order_witness :
  BWItem.format_card (JDict Edge.plain_card) = Raise (KeyError (JStr "brand")).
Proof. exact (format_card_reads_in_order (JDict Edge.plain_card)). Defined.

(** X7.  [BWItem.format_identity] reads the eighteen keys of the payload in
    the order of [Schema.identity_keys], with the same three outcomes as
    [BWItem.format_card]. *)
Theorem format_identity_reads_in_order (person : json) :
  match person with
  | JDict o =>
      match first_missing Schema.identity_keys o with
      | Some k => BWItem.format_identity person = Raise (KeyError (JStr k))
      | None => ∃ d, BWItem.format_identity person = Ok d ∧ d.*1 = identity_keys
      end
  | _ => BWItem.format_identity person = Raise TypeError
  end.
Proof.
  destruct person as [| | | | |o]; try reflexivity.
  destruct (first_missing Schema.identity_keys o) as [k|] eqn:Hk.
  - by apply format_identity_first_missing.
  - by apply format_identity_all_keys.
Qed.

(** X8.  [BWItem.format_login] reads [username], [password] and [totp]
    before it looks at the URIs.  A payload that is no dict raises
    [TypeError]; a dict that lacks one of the three keys raises the
    [KeyError] of the first one it lacks; and a dict that has the three keys
    and, under [uris], a value that has no length (null, a number, a
    boolean) raises the exception of [len]. *)
Theorem format_login_reads_in_order (login : json) :
  match login with
  | JDict o =>
      match first_missing Schema.login_keys o with
      | Some k => BWItem.format_login login = Raise (KeyError (JStr k))
      | None =>
          ∀ uris e, Py.assoc "uris" o = Some uris → Py.len uris = Raise e →
            BWItem.format_login login = Raise e
      end
  | _ => BWItem.format_login login = Raise TypeError
  end.
Proof.
  destruct login as [| | | | |o]; try reflexivity.
  destruct (first_missing Schema.login_keys o) as [k|] eqn:Hk.
  { by apply format_login_first_missing. }
  intros uris e Huris Hlen. apply first_missing_None in Hk.
  unfold BWItem.format_login, BWItem.copy_key.
  destruct (has_keys_getitem _ _ "username" Hk) as [u ->]; [set_solver|].
  destruct (has_keys_getitem _ _ "password" Hk) as [p ->]; [set_solver|].
  destruct (has_keys_getitem _ _ "totp" Hk) as [t ->]; [set_solver|].
  rewrite !bind_Ok. cbn [Py.get]. rewrite Huris. cbn [from_option id].
  by rewrite bind_Ok, Hlen.
Qed.

Lemma format_login_reads_in_order_witness :
  BWItem.format_login
    (JDict [("username", JStr "dave"); ("password", JNull); ("totp", JNull);
            ("uris", JNull)])
  = Raise TypeError.
Proof.
  exact (format_login_reads_in_order
           (JDict [("username", JStr "dave"); ("password", JNull); ("totp", JNull);
                   ("uris", JNull)])
           JNull TypeError eq_refl eq_refl).
Defined.

(** X9.  An item of type login, card or identity needs its payload, under
    the key that is also the label of the type.  [BWItem.format] raises the
    [KeyError] of that key for an item that lacks it, and [TypeError] for a
    payload that is no dict, such as null. *)
Theorem format_needs_payload (item name : json) (t : Z) :
  item.["type"] = Ok (JInt t) →
  t = 1 ∨ t = 3 ∨ t = 4 →
  item.["name"] = Ok name →
  (∀ e, item.[Spec.type_label t] = Raise e → BWItem.format item = Raise e)
  ∧ (∀ v, item.[Spec.type_label t] = Ok v → (∀ o, v ≠ JDict o) →
       BWItem.format item = Raise TypeError).
Proof.
  intros Hty Ht Hname.
  assert (BWItem.item_type item = Ok (Spec.type_label t)) as Hit.
  { apply item_type_code; [done|lia]. }
  unfold BWItem.format, BWItem.format_dict, BWItem.copy_key.
  rewrite !bind_Ok, Hit, bind_Ok, Hname, !bind_Ok. unfold BWItem.type_specific.
  split.
  - intros e He. destruct Ht as [->|[->| ->]]; cbn [Spec.type_label] in *;
      repeat (case_decide; [done || (by rewrite He)|]); done.
  - intros v Hv Hnd.
    assert (∀ key, v.[key] = Raise TypeError) as Hget.
    { intros key. destruct v; try done. by destruct (Hnd d). }
    destruct Ht as [->|[->| ->]]; cbn [Spec.type_label] in *;
      repeat (case_decide; [done || (rewrite Hv, bind_Ok)|]); try done.
    + unfold BWItem.format_login, BWItem.copy_key. by rewrite bind_Ok, (Hget "username").
    + unfold BWItem.format_card, BWItem.copy_key. by rewrite bind_Ok, (Hget "cardholderName").
    + unfold BWItem.format_identity, BWItem.copy_key. by rewrite bind_Ok, (Hget "title").
Qed.

Lemma format_needs_payload_witness :
  BWItem.format Edge.bare_card = Raise (KeyError (JStr "card")).
Proof.
  apply (proj1 (format_needs_payload Edge.bare_card (JStr "Bare") 3
                  eq_refl (or_intror (or_introl eq_refl)) eq_refl)).
  vm_compute. reflexivity.
Defined.

(** ** Lines of the body *)

Section line_facts.

Lemma startswith_app p t : PyStr.startswith (p +:+ t) p = true.
Proof.
  induction p as [|c p IH]; [by destruct t|].
  rewrite app_cons_s. cbn [PyStr.startswith]. by rewrite Ascii.eqb_refl, IH.
Qed.

(** A binding of the record that is not null is a line of the body. *)
Lemma line_of_binding d k v :
  (k, v) ∈ d → v ≠ JNull →
  ∃ pre post,
    BWItem.render d = pre +:+ (k +:+ ": " +:+ Py.str v +:+ PyStr.nl) +:+ post
    ∧ at_line_start pre.
Proof.
  intros Hin Hv.
  assert ((k, v) ∈ BWItem.emitted d) as Hem by by apply elem_of_emitted.
  apply list_elem_of_split in Hem as (l1 & l2 & Hem).
  rewrite render_text by (rewrite Hem; by destruct l1).
  rewrite Hem, text_of_app. exists (text_of l1), (text_of l2).
  split; [|apply text_of_line_start].
  cbn [text_of fold_right]. fold (text_of l2). unfold BWItem.line. cbn [fst snd].
  by rewrite !app_assoc_s.
Qed.

Lemma format_record item body :
  BWItem.format item = Ok body →
  ∃ ty name typed custom attached notes,
    BWItem.item_type item = Ok ty
    ∧ item.["name"] = Ok name
    ∧ Entries.of_type item ty = Ok typed
    ∧ item.["notes"] = Ok notes
    ∧ body = BWItem.render ([("Name", name)] ++ typed ++ custom ++ attached
                              ++ [("Notes", notes)]).
Proof.
  unfold BWItem.format. intros (d & Hd & [= <-])%bind_Ok_inv.
  rewrite format_dict_entries in Hd.
  apply of_item_inv in Hd
    as (ty & name & typed & custom & attached & notes & ? & ? & ? & _ & _ & ? & ->).
  by exists ty, name, typed, custom, attached, notes.
Qed.

End line_facts.

(** X10.  The body starts with the line of the display name and ends with the
    line of the notes, when they are not null; whatever the item holds, the
    body ends with a newline. *)
Theorem format_name_first_notes_last (item : json) (body : string) :
  BWItem.format item = Ok body →
  ∃ name notes,
    item.["name"] = Ok name ∧ item.["notes"] = Ok notes
    ∧ (name ≠ JNull →
         PyStr.startswith body ("Name: " +:+ Py.str name +:+ PyStr.nl) = true)
    ∧ (notes ≠ JNull →
         PyStr.endswith body ("Notes: " +:+ Py.str notes +:+ PyStr.nl) = true)
    ∧ PyStr.endswith body PyStr.nl = true.
Proof.
  intros (ty & name & typed & custom & attached & notes & _ & Hname & _ & Hnotes
          & ->)%format_record.
  exists name, notes. split_and!; [done..| | |].
  - intros Hv. rewrite render_text.
    2:{ rewrite emitted_app, (emitted_all [_]) by by constructor. done. }
    rewrite emitted_app, (emitted_all [_]), text_of_app by by constructor.
    cbn [text_of fold_right]. unfold BWItem.line. cbn [fst snd].
    rewrite app_nil_r_s.
    change ("Name" +:+ ": " +:+ Py.str name) with ("Name: " +:+ Py.str name).
    rewrite (app_assoc_s "Name: "). apply startswith_app.
  - intros Hv. rewrite !app_assoc. rewrite render_text.
    2:{ rewrite emitted_app, (emitted_all [_]) by by constructor.
        intros [_ ?]%app_eq_nil. done. }
    rewrite emitted_app, (emitted_all [_]), text_of_app by by constructor.
    apply endswith_app. cbn [text_of fold_right]. unfold BWItem.line.
    cbn [fst snd]. rewrite app_nil_r_s.
    change ("Notes" +:+ ": " +:+ Py.str notes) with ("Notes: " +:+ Py.str notes).
    rewrite (app_assoc_s "Notes: "). apply endswith_refl.
  - unfold BWItem.render. apply endswith_app, endswith_refl.
Qed.

Lemma format_name_first_notes_last_witness :
  ∃ body,
    BWItem.format Sample.wifi = Ok body
    ∧ PyStr.startswith body ("Name: Wifi" +:+ PyStr.nl) = true
    ∧ PyStr.endswith body ("Notes: guest network" +:+ PyStr.nl) = true.
Proof.
  eexists. split; [vm_compute; reflexivity|].
  destruct (format_name_first_notes_last Sample.wifi _ eq_refl)
    as (name & notes & Hname & Hnotes & Hfirst & Hlast & _).
  injection Hname as <-. injection Hnotes as <-.
  split; [by apply Hfirst|by apply Hlast].
Defined.

(** X11.  The body of a card always has the line of the expiry date, made of
    the month, a slash and the year as [str] prints them: the month and the
    year are put into one string, so that the line is written for a card
    without them as well, where it reads [None/None]. *)
Theorem format_card_expiry (item card m y : json) (body : string) :
  item.["type"] = Ok (JInt 3) →
  item.["card"] = Ok card →
  card.["expMonth"] = Ok m →
  card.["expYear"] = Ok y →
  BWItem.format item = Ok body →
  ∃ pre post,
    body = pre +:+ ("Card Expire MM/YYYY: " +:+ Py.str m +:+ "/" +:+ Py.str y
                    +:+ PyStr.nl) +:+ post
    ∧ at_line_start pre.
Proof.
  intros Hty Hcard Hm Hy
    (ty & name & typed & custom & attached & notes & Hit & _ & Htyped & _ & ->)
    %format_record.
  rewrite (item_type_code item 3 Hty) in Hit by lia. injection Hit as <-.
  unfold Entries.of_type in Htyped. cbn [Spec.type_label] in Htyped.
  repeat (case_decide; [done|]). rewrite decide_True in Htyped by done.
  rewrite Hcard, bind_Ok in Htyped.
  unfold BWItem.format_card, BWItem.copy_key in Htyped.
  rewrite Hm, Hy, !bind_Ok in Htyped.
  destruct (card.["cardholderName"]) as [a|?]; [|done].
  destruct (card.["brand"]) as [b|?]; [|done].
  destruct (card.["number"]) as [c|?]; [|done].
  destruct (card.["code"]) as [e|?]; [|done].
  injection Htyped as <-.
  destruct (line_of_binding
              ([("Name", name)]
               ++ [("Card Holder Name", a); ("Card Brand", b); ("Card Number", c);
                   ("Card Expire MM/YYYY", JStr (Py.str m +:+ "/" +:+ Py.str y));
                   ("Card Security Code", e)]
               ++ custom ++ attached ++ [("Notes", notes)])
              "Card Expire MM/YYYY" (JStr (Py.str m +:+ "/" +:+ Py.str y)))
    as (pre & post & Hbody & Hpre); [set_solver|done|].
  exists pre, post. split; [|done].
  etransitivity; [exact Hbody|]. cbn [Py.str]. by rewrite !app_assoc_s.
Qed.

Lemma format_card_expiry_witness :
  ∃ pre post,
    BWItem.format Sample.card
    = Ok (pre +:+ ("Card Expire MM/YYYY: None/None" +:+ PyStr.nl) +:+ post)
    ∧ at_line_start pre.
Proof.
  destruct (format_card_expiry Sample.card _ JNull JNull _
              eq_refl eq_refl eq_refl eq_refl eq_refl)
    as (pre & post & Hbody & Hpre).
  exists pre, post. split; [exact (f_equal Ok Hbody)|exact Hpre].
Defined.

(** ** The entries of the password store *)

Section store_names.


Lemma app_inj_l_s (s t1 t2 : string) : s +:+ t1 = s +:+ t2 → t1 = t2.
Proof.
  induction s as [|c s IH]; [done|]. rewrite !app_cons_s. intros [= H]. by apply IH.
Qed.

Lemma file_path_relative name :
  PyStr.startswith name "/" = false →
  PyStr.startswith (PassCli.get_file_path name) "/" = false.
Proof. unfold PassCli.get_file_path. by destruct name. Qed.

End store_names.


(** X13.  Entry names that do not start with a slash are kept apart by the
    path of their files: whatever the directory of the store, two such names
    with the same path are the same name. *)
Theorem full_path_inj (directory name1 name2 : string) :
  PyStr.startswith name1 "/" = false →
  PyStr.startswith name2 "/" = false →
  full_path directory name1 = full_path directory name2 →
  name1 = name2.
Proof.
  intros H1%file_path_relative H2%file_path_relative.
  unfold full_path, Os.path_join. rewrite H1, H2.
  destruct (bool_decide (directory = "") || PyStr.endswith directory "/").
  - intros H%app_inj_l_s. by apply get_file_path_inj.
  - intros H%app_inj_l_s%(app_inj_l_s "/"). by apply get_file_path_inj.
Qed.

Lemma full_path_inj_witness :
  full_path "/home/alice/.password-store" "wifi-note-def6"
  = "/home/alice/.password-store/wifi-note-def6.gpg"
  ∧ "wifi-note-def6" = "wifi-note-def6".
Proof.
  split; [vm_compute; reflexivity|].
  apply (full_path_inj "/home/alice/.password-store");
    vm_compute; reflexivity.
Defined.

(** X14.  A display name that starts with a slash gives an entry name that
    starts with a slash, and [os.path.join] drops the directory in front of
    such a name: the file that [PassCli.pass_exists] looks for, and that
    [PassCli.remove_force] would remove, is not in the password store. *)
Theorem passname_leading_slash (item : json) (id s : string) (t : Z) :
  item.["id"] = Ok (JStr id) →
  item.["name"] = Ok (JStr (String "/" s)) →
  item.["type"] = Ok (JInt t) →
  1 ≤ t ≤ 4 →
  ∃ name,
    BWItem.passname item = Ok name
    ∧ PyStr.startswith name "/" = true
    ∧ ∀ directory, full_path directory name = name +:+ ".gpg".
Proof.
  intros Hid Hname Hty Hr. eexists. split; [by apply passname_stem|].
  assert (name_stem (String "/" s)
          = String "/" (PyStr.lower (PyStr.sub_spaces_from false (PyStr.sub_seps s))))
    as -> by done.
  rewrite !app_cons_s. split; [done|]. intros directory.
  unfold full_path, Os.path_join, PassCli.get_file_path. by rewrite !app_cons_s.
Qed.

Lemma passname_leading_slash_witness :
  BWItem.passname Edge.rooted = Ok "/tmp/guest-note-e4e4"
  ∧ full_path "/home/alice/.password-store" "/tmp/guest-note-e4e4"
    = "/tmp/guest-note-e4e4.gpg".
Proof.
  destruct (passname_leading_slash Edge.rooted
              "e4e4e4e4-6789-4abc-8def-0123456789ab" "tmp/Guest" 2
              eq_refl eq_refl eq_refl ltac:(lia)) as (name & Hname & _ & Hpath).
  assert (name = "/tmp/guest-note-e4e4") as ->.
  { assert (BWItem.passname Edge.rooted = Ok "/tmp/guest-note-e4e4") as Hn
      by (vm_compute; reflexivity).
    rewrite Hn in Hname. by injection Hname. }
  split; [exact Hname|]. exact (Hpath _).
Defined.

(** ** The attempts of [BWCli.unlock] *)

Section unlock_more.

Lemma unlock_run bw k :
  ∀ fuel w,
    (∀ m, (m < k)%nat → unlock_output bw (unlock_runs w + m) = "") →
    unlock_output bw (unlock_runs w + k) ≠ "" →
    (k < fuel)%nat →
    BWCli.unlock bw fuel w
    = Some (World (files w) (stdout w ++ unlock_log (S k)) (effects w)
                  (unlock_runs w + S k),
            unlock_output bw (unlock_runs w + k)).
Proof.
  induction k as [|k IH]; intros [|fuel] w Hempty Hk Hfuel; try lia.
  - cbn [BWCli.unlock]. rewrite Nat.add_0_r in *.
    apply nonempty_length in Hk. rewrite Hk. by rewrite Nat.add_1_r.
  - cbn [BWCli.unlock].
    pose proof (Hempty 0%nat ltac:(lia)) as H0. rewrite Nat.add_0_r in H0.
    rewrite H0. cbn [String.length Nat.ltb Nat.leb].
    rewrite (IH fuel); cbn [unlock_runs files stdout effects].
    + rewrite <- app_assoc.
      replace (S (unlock_runs w) + S k)%nat with (unlock_runs w + S (S k))%nat by lia.
      by replace (S (unlock_runs w) + k)%nat with (unlock_runs w + S k)%nat by lia.
    + intros m Hm. replace (S (unlock_runs w) + m)%nat
        with (unlock_runs w + S m)%nat by lia. apply Hempty. lia.
    + by replace (S (unlock_runs w) + k)%nat
        with (unlock_runs w + S k)%nat by lia.
    + lia.
Qed.

Lemma unlock_inv bw fuel :
  ∀ w w' session,
    BWCli.unlock bw fuel w = Some (w', session) →
    ∃ k, (k < fuel)%nat
         ∧ (∀ m, (m < k)%nat → unlock_output bw (unlock_runs w + m) = "")
         ∧ unlock_output bw (unlock_runs w + k) ≠ "".
Proof.
  induction fuel as [|fuel IH]; intros w w' session; [done|].
  cbn [BWCli.unlock].
  destruct (0 <? String.length (unlock_output bw (unlock_runs w)))%nat eqn:Hlen.
  - intros _. exists 0%nat. split_and!; [lia|lia|].
    rewrite Nat.add_0_r. by apply nonempty_length.
  - intros (k & Hk & Hempty & Hfull)%IH. cbn [unlock_runs] in *.
    exists (S k). split_and!; [lia| |].
    + intros [|m] Hm.
      * rewrite Nat.add_0_r. destruct (unlock_output bw (unlock_runs w)); [done|].
        simpl in Hlen. done.
      * replace (unlock_runs w + S m)%nat with (S (unlock_runs w) + m)%nat by lia.
        apply Hempty. lia.
    + by replace (unlock_runs w + S k)%nat with (S (unlock_runs w) + k)%nat by lia.
Qed.

Lemma unlock_None bw fuel :
  ∀ w, BWCli.unlock bw fuel w = None
       ↔ ∀ m, (m < fuel)%nat → unlock_output bw (unlock_runs w + m) = "".
Proof.
  induction fuel as [|fuel IH]; intros w.
  { split; [intros _ m Hm; lia|done]. }
  cbn [BWCli.unlock].
  destruct (unlock_output bw (unlock_runs w)) as [|c s] eqn:Hout.
  - cbn [String.length Nat.ltb Nat.leb]. rewrite IH. cbn [unlock_runs]. split.
    + intros H [|m] Hm; [by rewrite Nat.add_0_r|].
      replace (unlock_runs w + S m)%nat with (S (unlock_runs w) + m)%nat by lia.
      apply H. lia.
    + intros H m Hm.
      replace (S (unlock_runs w) + m)%nat with (unlock_runs w + S m)%nat by lia.
      apply H. lia.
  - cbn [String.length Nat.ltb Nat.leb]. split; [done|].
    intros H. specialize (H 0%nat ltac:(lia)). rewrite Nat.add_0_r in H. congruence.
Qed.

(** The world in which [main] starts to unlock the vault. *)
Lemma main_unlock bw fuel w :
  main bw fuel w
  = match BWCli.unlock bw fuel
            (World (files w) (stdout w ++ banner) (effects w) (unlock_runs w)) with
    | None => None
    | Some (w1, session) =>
        Some (sync_store (vault_items bw)
                (World (files w1) (stdout w1 ++ session_log session)
                       (effects w1) (unlock_runs w1)))
    end.
Proof.
  unfold main, banner, session_log. unfold mbind at 1 2 3 4 5, prog_bind, print.
  cbn [files stdout effects unlock_runs].
  rewrite <- !app_assoc. cbn [app].
  destruct (BWCli.unlock _ _ _) as [[w1 session]|]; [|done].
  f_equal. unfold BWCli.sync, BWCli.list_items, mbind, prog_bind, print, mret,
    prog_ret. cbn [files stdout effects unlock_runs].
  by rewrite <- !app_assoc.
Qed.

End unlock_more.

(** ** A run of [main], in one piece *)

Section run_facts.

Lemma main_outcome bw fuel w w' r :
  main bw fuel w = Some (w', r) →
  let ws := writes_of (vault_items bw) in
  ∃ k,
    (k < fuel)%nat
    ∧ (∀ m, (m < k)%nat → unlock_output bw (unlock_runs w + m) = "")
    ∧ unlock_output bw (unlock_runs w + k) ≠ ""
    ∧ r = loop_result (vault_items bw)
    ∧ files w' = store_writes ws (files w)
    ∧ effects w' = effects w ++ loop_effects (files w) ws
    ∧ unlock_runs w' = (unlock_runs w + S k)%nat
    ∧ stdout w'
      = stdout w ++ banner ++ unlock_log (S k)
          ++ session_log (unlock_output bw (unlock_runs w + k))
          ++ loop_output (files w) ws
          ++ match r with
             | Ok _ =>
                 orphan_warning
                   (ignored_entries (PassCli.entry_names (files w)) ws.*1)
             | Raise _ => []
             end.
Proof.
  rewrite main_unlock. intros H ws.
  destruct (BWCli.unlock _ _ _) as [[w1 session]|] eqn:Hunlock; [|done].
  destruct (unlock_inv _ _ _ _ _ Hunlock) as (k & Hk & Hempty & Hfull).
  cbn [unlock_runs] in Hempty, Hfull.
  rewrite (unlock_run bw k) in Hunlock by done.
  cbn [files stdout effects unlock_runs] in Hunlock.
  injection Hunlock as <- <-. cbn [files stdout effects unlock_runs] in H.
  rewrite sync_store_run in H. cbn zeta in H. fold ws in H.
  exists k. split_and!; [done..| | | | |].
  all: destruct (loop_result (vault_items bw)) as [[]|e];
    injection H as <- <-; cbn [files stdout effects unlock_runs]; try done.
  all: by rewrite <- ?app_assoc, ?app_nil_r.
Qed.

Lemma writes_of_app pre l :
  loop_result pre = Ok tt →
  writes_of (pre ++ l) = writes_of pre ++ writes_of l
  ∧ loop_result (pre ++ l) = loop_result l.
Proof.
  induction pre as [|x pre IH]; [done|]. cbn [app writes_of loop_result].
  destruct (BWItem.passname x) as [name|e]; [|done].
  destruct (BWItem.format x) as [content|e]; [|done].
  intros [-> ->]%IH. done.
Qed.

Lemma store_writes_app ws1 ws2 m :
  store_writes (ws1 ++ ws2) m = store_writes ws2 (store_writes ws1 m).
Proof. apply foldl_app. Qed.

Lemma store_writes_keeps ws :
  ∀ m path, is_Some (m !! path) → is_Some (store_writes ws m !! path).
Proof.
  induction ws as [|[name content] ws IH]; intros m path Hin; [done|].
  cbn [store_writes foldl]. apply IH. rewrite lookup_insert_is_Some.
  destruct (decide (PassCli.get_file_path name = path)); auto.
Qed.

End run_facts.

(** X15.  Let the first run of [bw unlock --raw] that prints something be the
    one after [k] runs that print nothing.  Then [BWCli.unlock] runs the
    tool [k + 1] times, logs each of these runs with the same line, returns
    what the last of them prints, and touches neither the password store
    nor anything else; with [k] attempts or fewer it is still waiting. *)
Theorem unlock_counts_attempts (bw : bw_tool) (w : world) (k : nat) :
  (∀ m, (m < k)%nat → unlock_output bw (unlock_runs w + m) = "") →
  unlock_output bw (unlock_runs w + k) ≠ "" →
  ∀ fuel,
    BWCli.unlock bw fuel w
    = if (k <? fuel)%nat
      then Some (World (files w) (stdout w ++ unlock_log (S k)) (effects w)
                       (unlock_runs w + S k),
                 unlock_output bw (unlock_runs w + k))
      else None.
Proof.
  intros Hempty Hfull fuel. destruct (Nat.ltb_spec k fuel) as [Hlt|Hge].
  - by apply unlock_run.
  - apply unlock_None. intros m Hm. apply Hempty. lia.
Qed.

Lemma unlock_counts_attempts_witness :
  BWCli.unlock Sample.vault 5 Sample.store
  = Some (World (files Sample.store)
                (["> bw unlock --raw"; "> bw unlock --raw"; "> bw unlock --raw"])
                [] 3,
          "c2Vzc2lvbg==")
  ∧ BWCli.unlock Sample.vault 2 Sample.store = None.
Proof.
  assert (∀ m, (m < 2)%nat →
            unlock_output Sample.vault (unlock_runs Sample.store + m) = "") as Hempty.
  { intros [|[|m]] Hm; [reflexivity|reflexivity|lia]. }
  assert (unlock_output Sample.vault (unlock_runs Sample.store + 2) ≠ "") as Hfull
    by discriminate.
  split.
  - exact (unlock_counts_attempts Sample.vault Sample.store 2 Hempty Hfull 5).
  - exact (unlock_counts_attempts Sample.vault Sample.store 2 Hempty Hfull 2).
Defined.

(** X16.  The only way for [main] not to come to an end is the loop of
    [BWCli.unlock]: a run is still waiting after [fuel] attempts exactly
    when each of these attempts printed nothing. *)
Theorem main_waits_for_token (bw : bw_tool) (fuel : nat) (w : world) :
  main bw fuel w = None
  ↔ ∀ m, (m < fuel)%nat → unlock_output bw (unlock_runs w + m) = "".
Proof.
  rewrite main_unlock.
  rewrite <- (unlock_None bw fuel
                (World (files w) (stdout w ++ banner) (effects w) (unlock_runs w))).
  by destruct (BWCli.unlock _ _ _) as [[w1 session]|].
Qed.

Lemma main_waits_for_token_witness : main Edge.silent 7 Sample.store = None.
Proof. apply (proj2 (main_waits_for_token Edge.silent 7 Sample.store)). done. Defined.



(** ** The exceptions of a run *)

Section fine_facts.


















Lemma loop_result_all items :
  (∀ y, y ∈ items → ∃ n c, BWItem.passname y = Ok n ∧ BWItem.format y = Ok c) →
  loop_result items = Ok tt.
Proof.
  induction items as [|x items IH]; intros Hall; [done|]. cbn [loop_result].
  destruct (Hall x) as (n & c & -> & ->); [by left|].
  apply IH. intros y Hy. apply Hall. by right.
Qed.

Lemma loop_result_first x post e :
  BWItem.passname x = Raise e
  ∨ (∃ n, BWItem.passname x = Ok n ∧ BWItem.format x = Raise e) →
  writes_of (x :: post) = [] ∧ loop_result (x :: post) = Raise e.
Proof.
  cbn [writes_of loop_result]. intros [->|(n & -> & ->)]; [|done].
  by destruct (BWItem.format x).
Qed.

End fine_facts.

(** X18.  A run that stops at an item stops with the exception of that item:
    what the items before it gave is written, in their order, and the items
    after it are not looked at, whether they could be read or not. *)
Theorem main_stops_at_first_error
    (bw : bw_tool) (fuel : nat) (w w' : world) (r : result unit)
    (pre post : list json) (x : json) (e : exn) :
  vault_items bw = pre ++ x :: post →
  (∀ y, y ∈ pre → ∃ n c, BWItem.passname y = Ok n ∧ BWItem.format y = Ok c) →
  BWItem.passname x = Raise e
    ∨ (∃ n, BWItem.passname x = Ok n ∧ BWItem.format x = Raise e) →
  main bw fuel w = Some (w', r) →
  r = Raise e
  ∧ files w' = store_writes (writes_of pre) (files w)
  ∧ inserted (drop (length (effects w)) (effects w')) = writes_of pre
  ∧ Forall2 (λ item nc, BWItem.passname item = Ok nc.1
                        ∧ BWItem.format item = Ok nc.2) pre (writes_of pre).
Proof.
  intros Hitems Hpre%loop_result_all Hx
    (k & _ & _ & _ & -> & Hfiles & Heffects & _)%main_outcome.
  rewrite Hitems in *.
  destruct (writes_of_app pre (x :: post) Hpre) as [Hws Hr].
  destruct (loop_result_first x post e Hx) as [Hws' Hr'].
  rewrite Hws, Hws', app_nil_r in *. rewrite Hr, Hr'.
  split_and!; [done|done| |by apply writes_of_all].
  by rewrite Heffects, drop_app_length, inserted_loop_effects.
Qed.

Lemma main_stops_at_first_error_witness :
  let w' := world_after Edge.broken_vault 1 Sample.store in
  main Edge.broken_vault 1 Sample.store
  = Some (w', Raise (Exception "Unknown item type: 5"))
  ∧ inserted (drop (length (effects Sample.store)) (effects w'))
    = writes_of [Sample.mail]
  ∧ files w' !! "wifi-note-def6.gpg" = Some "Name: Wifi".
Proof.
  intros w'.
  assert (main Edge.broken_vault 1 Sample.store
          = Some (w', Raise (Exception "Unknown item type: 5"))) as Hmain
    by (vm_compute; reflexivity).
  assert (∀ y, y ∈ [Sample.mail] →
            ∃ n c, BWItem.passname y = Ok n ∧ BWItem.format y = Ok c) as Hpre.
  { apply Forall_forall. repeat constructor.
    eexists _, _. split; vm_compute; reflexivity. }
  assert (BWItem.passname Sample.odd = Raise (Exception "Unknown item type: 5"))
    as Hodd by (vm_compute; reflexivity).
  destruct (main_stops_at_first_error Edge.broken_vault 1 Sample.store w' _
              [Sample.mail] [Sample.wifi] Sample.odd _
              eq_refl Hpre (or_introl Hodd) Hmain) as (_ & Hfiles & Hins & _).
  split_and!; [exact Hmain|exact Hins|].
  rewrite Hfiles. vm_compute. reflexivity.
Defined.

(** X19.  When several items get one entry name, the entry holds the body of
    the last of them that the loop came to. *)
Theorem main_last_item_wins
    (bw : bw_tool) (fuel : nat) (w w' : world) (r : result unit)
    (pre post : list json) (x : json) (name body : string) :
  main bw fuel w = Some (w', r) →
  vault_items bw = pre ++ x :: post →
  (∀ y, y ∈ pre → ∃ n c, BWItem.passname y = Ok n ∧ BWItem.format y = Ok c) →
  BWItem.passname x = Ok name →
  BWItem.format x = Ok body →
  (∀ y, y ∈ post → BWItem.passname y ≠ Ok name) →
  files w' !! PassCli.get_file_path name = Some body.
Proof.
  intros (k & _ & _ & _ & _ & -> & _)%main_outcome Hitems Hpre%loop_result_all
    Hname Hbody Hpost.
  rewrite Hitems. destruct (writes_of_app pre (x :: post) Hpre) as [-> _].
  cbn [writes_of]. rewrite Hname, Hbody, store_writes_app.
  change (store_writes ((name, body) :: writes_of post) ?m)
    with (store_writes (writes_of post) (<[PassCli.get_file_path name := body]> m)).
  rewrite store_writes_other; [by rewrite lookup_insert_eq|].
  intros [n c] (y & Hy & Hn & _)%writes_of_elem Heq.
  apply get_file_path_inj in Heq. cbn [fst] in Heq. subst n. by apply (Hpost y).
Qed.

Lemma main_last_item_wins_witness :
  let w' := world_after Edge.twin_vault 1 Sample.store in
  ∃ body,
    BWItem.format Edge.bank_twin = Ok body
    ∧ BWItem.format Sample.bank ≠ Ok body
    ∧ files w' !! PassCli.get_file_path "my-bank-login-abc1" = Some body.
Proof.
  intros w'.
  assert (main Edge.twin_vault 1 Sample.store = Some (w', Ok tt)) as Hmain
    by (vm_compute; reflexivity).
  assert (∀ y, y ∈ [Sample.bank] →
            ∃ n c, BWItem.passname y = Ok n ∧ BWItem.format y = Ok c) as Hpre.
  { apply Forall_forall. repeat constructor.
    eexists _, _. split; vm_compute; reflexivity. }
  assert (BWItem.passname Edge.bank_twin = Ok "my-bank-login-abc1") as Hname
    by (vm_compute; reflexivity).
  assert (∃ body, BWItem.format Edge.bank_twin = Ok body
                  ∧ BWItem.format Sample.bank ≠ Ok body) as (body & Hbody & Hne).
  { eexists. split; [vm_compute; reflexivity|vm_compute; discriminate]. }
  assert (∀ y : json, y ∈ [] → BWItem.passname y ≠ Ok "my-bank-login-abc1")
    as Hpost.
  { apply Forall_forall. constructor. }
  exists body. split_and!; [exact Hbody|exact Hne|].
  exact (main_last_item_wins Edge.twin_vault 1 Sample.store w' (Ok tt)
           [Sample.bank] [] Edge.bank_twin "my-bank-login-abc1" body
           Hmain eq_refl Hpre Hname Hbody Hpost).
Defined.

(** X20.  A run of [main] loses no file of the password store, whether it
    reaches its end or stops at an item: an entry that is removed is
    inserted again before anything can fail. *)
Theorem main_keeps_every_file
    (bw : bw_tool) (fuel : nat) (w w' : world) (r : result unit) :
  main bw fuel w = Some (w', r) →
  ∀ path, is_Some (files w !! path) → is_Some (files w' !! path).
Proof.
  intros (k & _ & _ & _ & _ & -> & _)%main_outcome path. apply store_writes_keeps.
Qed.

Lemma main_keeps_every_file_witness :
  is_Some (files (world_after Sample.vault 3 Sample.store) !! ".gpg-id").
Proof.
  apply (main_keeps_every_file Sample.vault 3 Sample.store _ (Ok tt)).
  - vm_compute. reflexivity.
  - exists "0xDEADBEEF". vm_compute. reflexivity.
Defined.



(** X22.  When every item of the vault has the keys its type asks for, and
    [bw unlock --raw] prints a token at some attempt, [main] comes to its
    end without an exception, and hands to [pass insert] the entry name and
    the body of every item, one call for each item, in the order of the
    vault. *)
Theorem main_writes_every_item
    (bw : bw_tool) (fuel : nat) (w : world) (k : nat) :
  forallb Schema.item (vault_items bw) = true →
  (∀ m, (m < k)%nat → unlock_output bw (unlock_runs w + m) = "") →
  unlock_output bw (unlock_runs w + k) ≠ "" →
  (k < fuel)%nat →
  ∃ w',
    main bw fuel w = Some (w', Ok tt)
    ∧ Forall2 (λ item nc, BWItem.passname item = Ok nc.1
                          ∧ BWItem.format item = Ok nc.2)
        (vault_items bw) (inserted (drop (length (effects w)) (effects w'))).
Proof.
  intros Hitems Hempty Hfull Hfuel.
  destruct (main_returns bw fuel w k Hempty Hfull Hfuel) as (w' & r & Hmain).
  pose proof (loop_result_ok _ Hitems) as Hr.
  pose proof Hmain as (k' & _ & _ & _ & -> & _ & Heffects & _)%main_outcome.
  exists w'. rewrite Hr in Hmain. split; [done|].
  rewrite Heffects, drop_app_length, inserted_loop_effects. by apply writes_of_all.
Qed.

Lemma main_writes_every_item_witness :
  ∃ w',
    main Sample.vault 3 Sample.store = Some (w', Ok tt)
    ∧ Forall2 (λ item nc, BWItem.passname item = Ok nc.1
                          ∧ BWItem.format item = Ok nc.2)
        [Sample.mail; Sample.wifi]
        (inserted (drop (length (effects Sample.store)) (effects w'))).
Proof.
  apply (main_writes_every_item Sample.vault 3 Sample.store 2).
  - vm_compute. reflexivity.
  - intros [|[|m]] Hm; [reflexivity|reflexivity|lia].
  - discriminate.
  - lia.
Defined.
